(** * Unified AI Router: provider registry, backend clients and router

    A shallow embedding of [config.py], [ai_provider.py] and [main.py].

    Modelling conventions.
    - A Python [str] is the [string] of the bytes of its UTF-8 encoding.
      Its characters are the byte groups [PyStr.chars] cuts it into;
      [len], [strip] and [isspace] work on characters, with the white space
      of Unicode.  [lower] folds the letters A-Z; no key of the registry
      and no keyword the code looks for has a letter outside them.
    - An [int] is a [Z]; a finite [float] is the rational it denotes, a [Q]
      (the bounds [0.0], [2.0], [10.0] and [30.0] are exact).
    - A raised exception is a value of [exn]; a computation yields an
      [outcome] together with the backend calls it issued, in order.
    - The network is a [World]: what a backend does when it is called.
    - Texts produced by the Python runtime itself ([str(e)] of a built-in
      exception, [str(v)] of a value that is not a string) are taken from a
      [Runtime] record; the text of an [httpx.HTTPStatusError] comes with
      the response that causes it. *)

From Stdlib Require Import String Ascii List ZArith NArith QArith Bool Lia DecimalString.
Import ListNotations.

Local Open Scope string_scope.
Local Open Scope Z_scope.

(** ** Python strings *)

Module PyStr.

Definition lower_char (c : ascii) : ascii :=
  let n := N_of_ascii c in
  if ((65 <=? n) && (n <=? 90))%N then ascii_of_N (n + 32) else c.

(** [s.lower()] *)
Fixpoint lower (s : string) : string :=
  match s with
  | EmptyString => EmptyString
  | String c t => String (lower_char c) (lower t)
  end.

Definition code (c : ascii) : N := N_of_ascii c.

(** A byte [10xxxxxx]: it continues the character begun before it. *)
Definition is_cont (c : ascii) : bool :=
  ((128 <=? code c) && (code c <=? 191))%N.

Definition starts_cont (s : string) : bool :=
  match s with EmptyString => false | String c _ => is_cont c end.

(** The characters of [s], each as the bytes that encode it: a byte that
    continues a character goes with the bytes before it. *)
Fixpoint chars (s : string) : list string :=
  match s with
  | EmptyString => []
  | String c t =>
      match chars t with
      | [] => [String c EmptyString]
      | ch :: rest =>
          if starts_cont t then String c ch :: rest
          else String c EmptyString :: ch :: rest
      end
  end.

Fixpoint flatten (l : list string) : string :=
  match l with
  | [] => EmptyString
  | ch :: rest => ch ++ flatten rest
  end.

(** [len(s)] *)
Definition len (s : string) : nat := List.length (chars s).

(** [ch.isspace()] for one character: U+0009-000D, U+001C-0020, U+0085,
    U+00A0, U+1680, U+2000-200A, U+2028, U+2029, U+202F, U+205F and
    U+3000. *)
Definition is_space (ch : string) : bool :=
  match ch with
  | String a EmptyString =>
      (((9 <=? code a) && (code a <=? 13))
       || ((28 <=? code a) && (code a <=? 32)))%N
  | String a (String b EmptyString) =>
      ((code a =? 194) && ((code b =? 133) || (code b =? 160)))%N
  | String a (String b (String c EmptyString)) =>
      (((code a =? 225) && (code b =? 154) && (code c =? 128))
       || ((code a =? 226) && (code b =? 128)
           && (((128 <=? code c) && (code c <=? 138))
               || (code c =? 168) || (code c =? 169) || (code c =? 175)))
       || ((code a =? 226) && (code b =? 129) && (code c =? 159))
       || ((code a =? 227) && (code b =? 128) && (code c =? 128)))%N
  | _ => false
  end.

Fixpoint lstrip_chars (l : list string) : list string :=
  match l with
  | [] => []
  | ch :: rest => if is_space ch then lstrip_chars rest else l
  end.

Fixpoint rstrip_chars (l : list string) : list string :=
  match l with
  | [] => []
  | ch :: rest =>
      match rstrip_chars rest with
      | [] => if is_space ch then [] else [ch]
      | rest' => ch :: rest'
      end
  end.

(** [s.strip()] *)
Definition strip (s : string) : string :=
  flatten (rstrip_chars (lstrip_chars (chars s))).

(** [bool(s)] *)
Definition truthy (s : string) : bool :=
  match s with EmptyString => false | _ => true end.

(** [needle in hay] *)
Fixpoint contains (needle hay : string) : bool :=
  prefix needle hay ||
  match hay with
  | EmptyString => false
  | String _ t => contains needle t
  end.

(** [s.startswith(p)] *)
Definition startswith (p s : string) : bool := prefix p s.

(** [s.replace(old, "")] for a non-empty [old]: every occurrence, found
    from the left and not overlapping, is removed.  [skip] counts the
    characters of the current occurrence still to drop. *)
Fixpoint remove_from (old s : string) (skip : nat) : string :=
  match s with
  | EmptyString => EmptyString
  | String c t =>
      match skip with
      | S k => remove_from old t k
      | O =>
          if prefix old s
          then remove_from old t (Nat.pred (String.length old))
          else String c (remove_from old t O)
      end
  end.

Definition remove_all (old s : string) : string := remove_from old s O.

(** [sep.join(l)] *)
Fixpoint join (sep : string) (l : list string) : string :=
  match l with
  | [] => ""
  | [x] => x
  | x :: rest => x ++ sep ++ join sep rest
  end.

(** [str(l)] of a list of strings free of quotes and escapes. *)
Definition list_repr (l : list string) : string :=
  "[" ++ join ", " (map (fun k => "'" ++ k ++ "'") l) ++ "]".

(** Every character of [s] is white space. *)
Definition all_space (s : string) : bool := forallb is_space (chars s).





(** How [chars] groups bytes: after its first byte a character has
    continuation bytes only, and every character but the first of a text
    begins with a byte that is none. *)
Fixpoint all_cont (s : string) : bool :=
  match s with
  | EmptyString => true
  | String c t => is_cont c && all_cont t
  end.

Definition tail_ok (ch : string) : bool :=
  match ch with EmptyString => false | String _ t => all_cont t end.

Definition proper (ch : string) : bool :=
  match ch with
  | EmptyString => false
  | String c t => negb (is_cont c) && all_cont t
  end.

Definition chunked (l : list string) : Prop :=
  match l with
  | [] => True
  | ch :: rest => tail_ok ch = true /\ Forall (fun x => proper x = true) rest
  end.

(** [s.split(sep)] for a separator of one character: every occurrence
    cuts, so an empty string gives one empty piece and two separators in a
    row give an empty piece between them. *)
Fixpoint split_on (sep : ascii) (s : string) : list string :=
  match s with
  | EmptyString => [EmptyString]
  | String c t =>
      if Ascii.eqb c sep then EmptyString :: split_on sep t
      else match split_on sep t with
           | piece :: rest => String c piece :: rest
           | [] => [String c EmptyString]
           end
  end.

(** [c in s] for a character [c] *)
Fixpoint has_char (c : ascii) (s : string) : bool :=
  match s with
  | EmptyString => false
  | String c' t => Ascii.eqb c' c || has_char c t
  end.

End PyStr.

(** ** Values, exceptions and effects *)

(** A parsed JSON document, as [response.json()] returns it.  An object is
    the list of the entries of the [dict], looked up by [assoc]. *)
#[warnings="-register-all"] Inductive json : Type :=
| JNull
| JBool (b : bool)
| JInt (n : Z)
| JReal (q : Q)
| JStr (s : string)
| JArr (items : list json)
| JObj (fields : list (string * json)).

Fixpoint assoc {A : Type} (k : string) (l : list (string * A)) : option A :=
  match l with
  | [] => None
  | (k', v) :: rest => if String.eqb k k' then Some v else assoc k rest
  end.

(** An HTTP response: its status, what [response.json()] gives ([None]
    when the body is not JSON), and the text [str(e)] of the
    [HTTPStatusError] that [raise_for_status] builds from it and its
    request (status, reason phrase, URL with its query). *)
Record Response := {
  status_code : Z;
  body : option json;
  status_error_text : string
}.

(** Exceptions the interpreter or a library raises by itself. *)
Inductive fault : Type :=
| KeyError (key : json)
| IndexError
| TypeError_subscript (v key : json)
| AttributeError (v : json) (attr : string)
| TypeError_compare
| JSONDecodeError
| TimeoutException.

Record Runtime := {
  exc_text : fault -> string;     (* str(e) of such an exception *)
  value_text : json -> string     (* str(v) of a value that is not a str *)
}.

Inductive exn : Type :=
| HTTPException (status : Z) (detail : string)           (* fastapi *)
| HTTPStatusError (message : string) (response : Response) (* httpx *)
| ResponseError (message : string)                       (* ollama *)
| Exception (message : string).                          (* any other *)

Definition str_int (n : Z) : string := NilZero.string_of_int (Z.to_int n).

(** [str(e)] *)
Definition str_exn (e : exn) : string :=
  match e with
  | HTTPException status detail => str_int status ++ ": " ++ detail
  | HTTPStatusError message _ => message
  | ResponseError message => message
  | Exception message => message
  end.

(** [f"{v}"] *)
Definition format (rt : Runtime) (v : json) : string :=
  match v with
  | JStr s => s
  | _ => value_text rt v
  end.

Inductive outcome (A : Type) : Type :=
| Return (a : A)
| Raise (e : exn)
| Hang.
Arguments Return {A} a.
Arguments Raise {A} e.
Arguments Hang {A}.

Record Timeout := { connect : Q; read : Q; write : Q; pool : Q }.

Record http_call := {
  url : string;
  headers : list (string * string);
  params : list (string * string);
  payload : json;
  timeout : Timeout
}.

Record ollama_call := {
  gen_model : string;
  gen_prompt : string;
  gen_options : list (string * json)
}.

Inductive backend_call : Type :=
| HttpPost (c : http_call)
| OllamaGenerate (c : ollama_call).

(** What a cloud backend does with a request. *)
Inductive http_behaviour : Type :=
| Responds (r : Response)
| Fails (text : string)      (* the transport raises; [text] is [str(e)] *)
| Silent.                    (* no answer ever arrives *)

(** What [ollama.generate] does. *)
Inductive ollama_behaviour : Type :=
| Generates (response : json)
| Rejects (text : string)    (* raises [ollama.ResponseError] *)
| Breaks (text : string)     (* raises any other exception *)
| Stalls.                    (* no answer ever arrives *)

Record World := {
  http : http_call -> http_behaviour;
  ollama_generate : ollama_call -> ollama_behaviour
}.

(** A computation: its outcome and the backend calls it issued. *)
Definition io (A : Type) : Type := (outcome A * list backend_call)%type.

Definition ret {A : Type} (a : A) : io A := (Return a, []).
Definition raise {A : Type} (e : exn) : io A := (Raise e, []).
Definition pure {A : Type} (o : outcome A) : io A := (o, []).

Definition bind {A B : Type} (m : io A) (f : A -> io B) : io B :=
  match m with
  | (Return a, t) => let (r, t') := f a in (r, (t ++ t')%list)
  | (Raise e, t) => (Raise e, t)
  | (Hang, t) => (Hang, t)
  end.

(** [try: m  except ... as e: h e]; an exception raised by the handler is
    not caught again. *)
Definition try_except {A : Type} (m : io A) (h : exn -> io A) : io A :=
  match m with
  | (Raise e, t) => let (r, t') := h e in (r, (t ++ t')%list)
  | _ => m
  end.

Notation "x <- m ;; k" := (bind m (fun x => k))
  (at level 61, m at next level, right associativity).

(** ** Operations on values *)

Section Values.
Variable rt : Runtime.

Definition fail {A : Type} (f : fault) : outcome A :=
  Raise (Exception (exc_text rt f)).

(** [v[k]] *)
Definition getitem (v : json) (k : string) : outcome json :=
  match v with
  | JObj fields =>
      match assoc k fields with
      | Some x => Return x
      | None => fail (KeyError (JStr k))
      end
  | _ => fail (TypeError_subscript v (JStr k))
  end.

(** [v[0]] *)
Definition getitem0 (v : json) : outcome json :=
  match v with
  | JArr (x :: _) => Return x
  | JArr [] => fail IndexError
  | JStr (String c _) => Return (JStr (String c EmptyString))
  | JStr EmptyString => fail IndexError
  | JObj _ => fail (KeyError (JInt 0))
  | _ => fail (TypeError_subscript v (JInt 0))
  end.

(** [v.strip()] *)
Definition strip_of (v : json) : outcome string :=
  match v with
  | JStr s => Return (PyStr.strip s)
  | _ => fail (AttributeError v "strip")
  end.

(** [v.get(k, default)] *)
Definition dict_get (v : json) (k : string) (default : json) : outcome json :=
  match v with
  | JObj fields =>
      match assoc k fields with
      | Some x => Return x
      | None => Return default
      end
  | _ => fail (AttributeError v "get")
  end.

(** [response.json()] *)
Definition response_json (r : Response) : outcome json :=
  match body r with
  | Some v => Return v
  | None => fail JSONDecodeError
  end.

Definition is_success (r : Response) : bool :=
  (200 <=? status_code r) && (status_code r <=? 299).

(** [response.raise_for_status()] *)
Definition raise_for_status (r : Response) : outcome unit :=
  if is_success r then Return tt
  else Raise (HTTPStatusError (status_error_text r) r).

(** [await client.post(...)] on a client built with a timeout. *)
Definition post (w : World) (c : http_call) : io Response :=
  (match http w c with
   | Responds r => Return r
   | Fails text => Raise (Exception text)
   | Silent => fail TimeoutException
   end, [HttpPost c]).

(** [ollama.generate(...)]: the module's default client, which sets no
    timeout. *)
Definition generate (w : World) (c : ollama_call) : io json :=
  (match ollama_generate w c with
   | Generates response => Return response
   | Rejects text => Raise (ResponseError text)
   | Breaks text => Raise (Exception text)
   | Stalls => Hang
   end, [OllamaGenerate c]).

End Values.

(** [x or default] on an optional string *)
Definition or_else (x : option string) (default : string) : string :=
  match x with
  | Some s => if PyStr.truthy s then s else default
  | None => default
  end.

Definition opt_int (n : option Z) : json :=
  match n with Some z => JInt z | None => JNull end.

Definition opt_real (q : option Q) : json :=
  match q with Some x => JReal x | None => JNull end.

(** ** config.py *)

Record Settings := {
  openai_api_key : string;
  anthropic_api_key : string;
  gemini_api_key : string;
  ollama_host : string;
  default_ollama_model : string;
  default_openai_model : string;
  default_anthropic_model : string;
  default_gemini_model : string;
  allowed_origins : string
}.

(** The values of the optional settings when the environment is silent. *)
Definition default_settings (openai anthropic gemini : string) : Settings := {|
  openai_api_key := openai;
  anthropic_api_key := anthropic;
  gemini_api_key := gemini;
  ollama_host := "http://localhost:11434";
  default_ollama_model := "llama3.2:3b";
  default_openai_model := "gpt-4o-mini";
  default_anthropic_model := "claude-3-5-sonnet-20241022";
  default_gemini_model := "gemini-1.5-flash";
  allowed_origins := "http://localhost:3000,http://localhost:8000"
|}.

(** [[origin.strip() for origin in allowed_origins.split(",") if origin.strip()]] *)
Definition cors_origins_list (s : Settings) : list string :=
  map PyStr.strip
    (filter (fun origin => PyStr.truthy (PyStr.strip origin))
       (PyStr.split_on "," (allowed_origins s))).

Definition is_ollama_available (s : Settings) : bool :=
  PyStr.truthy (PyStr.strip (ollama_host s)).

(** ** ai_provider.py *)

Definition TIMEOUT_CONFIG : Timeout :=
  {| connect := 10; read := 30; write := 30; pool := 30 |}.

Definition user_message (prompt : string) : json :=
  JArr [JObj [("role", JStr "user"); ("content", JStr prompt)]].

Section Providers.
Variable rt : Runtime.
Variable settings : Settings.
Variable w : World.

(** The two [except] clauses of a cloud client; [name] is the provider's
    display name. *)
Definition cloud_except (name : string) (e : exn) : io string :=
  match e with
  | HTTPStatusError message response =>
      parsed <- pure (response_json rt response) ;;
      error <- pure (dict_get rt parsed "error" (JObj [])) ;;
      error_detail <- pure (dict_get rt error "message" (JStr message)) ;;
      raise (HTTPException (status_code response)
               (name ++ " API Error: " ++ format rt error_detail))
  | _ =>
      raise (HTTPException 502 (name ++ " request failed: " ++ str_exn e))
  end.

Definition call_openai (prompt : string) (model : option string)
    (max_tokens : option Z) (temperature : option Q) : io string :=
  let api_key := openai_api_key settings in
  let model := or_else model (default_openai_model settings) in
  let headers :=
    [("Authorization", "Bearer " ++ api_key);
     ("Content-Type", "application/json")] in
  let payload :=
    JObj [("model", JStr model);
          ("messages", user_message prompt);
          ("max_tokens", opt_int max_tokens);
          ("temperature", opt_real temperature)] in
  try_except
    (response <- post rt w
       {| url := "https://api.openai.com/v1/chat/completions";
          headers := headers; params := []; payload := payload;
          timeout := TIMEOUT_CONFIG |} ;;
     _ <- pure (raise_for_status response) ;;
     data <- pure (response_json rt response) ;;
     choices <- pure (getitem rt data "choices") ;;
     choice <- pure (getitem0 rt choices) ;;
     message <- pure (getitem rt choice "message") ;;
     content <- pure (getitem rt message "content") ;;
     pure (strip_of rt content))
    (cloud_except "OpenAI").

Definition call_anthropic (prompt : string) (model : option string)
    (max_tokens : option Z) (temperature : option Q) : io string :=
  let api_key := anthropic_api_key settings in
  let model := or_else model (default_anthropic_model settings) in
  max_tokens <- pure (match max_tokens with
                      | Some n => Return (Z.max 1 (Z.min n 4096))
                      | None => fail rt TypeError_compare
                      end) ;;
  let headers :=
    [("x-api-key", api_key);
     ("anthropic-version", "2023-06-01");
     ("content-type", "application/json")] in
  let payload :=
    JObj [("model", JStr model);
          ("messages", user_message prompt);
          ("max_tokens", JInt max_tokens);
          ("temperature", opt_real temperature)] in
  try_except
    (response <- post rt w
       {| url := "https://api.anthropic.com/v1/messages";
          headers := headers; params := []; payload := payload;
          timeout := TIMEOUT_CONFIG |} ;;
     _ <- pure (raise_for_status response) ;;
     data <- pure (response_json rt response) ;;
     content <- pure (getitem rt data "content") ;;
     block <- pure (getitem0 rt content) ;;
     text <- pure (getitem rt block "text") ;;
     pure (strip_of rt text))
    (cloud_except "Anthropic").

Definition call_gemini (prompt : string) (model : option string)
    (max_tokens : option Z) (temperature : option Q) : io string :=
  let api_key := gemini_api_key settings in
  let model_name := or_else model (default_gemini_model settings) in
  let api_model :=
    if PyStr.startswith "gemini-" model_name
    then PyStr.remove_all "gemini-" model_name
    else model_name in
  let payload :=
    JObj [("contents", JArr [JObj [("parts", JArr [JObj [("text", JStr prompt)]])]]);
          ("generationConfig",
           JObj [("maxOutputTokens", opt_int max_tokens);
                 ("temperature", opt_real temperature)])] in
  try_except
    (response <- post rt w
       {| url := "https://generativelanguage.googleapis.com/v1beta/models/"
                 ++ api_model ++ ":generateContent";
          headers := []; params := [("key", api_key)]; payload := payload;
          timeout := TIMEOUT_CONFIG |} ;;
     _ <- pure (raise_for_status response) ;;
     data <- pure (response_json rt response) ;;
     candidates <- pure (getitem rt data "candidates") ;;
     candidate <- pure (getitem0 rt candidates) ;;
     content <- pure (getitem rt candidate "content") ;;
     parts <- pure (getitem rt content "parts") ;;
     part <- pure (getitem0 rt parts) ;;
     text <- pure (getitem rt part "text") ;;
     pure (strip_of rt text))
    (cloud_except "Gemini").

Definition ollama_except (model : string) (e : exn) : io string :=
  match e with
  | ResponseError message =>
      if PyStr.contains "model not found" (PyStr.lower message) then
        raise (HTTPException 400
                 ("Ollama model '" ++ model ++ "' not found. Run: ollama pull "
                  ++ model))
      else if PyStr.contains "connection" (PyStr.lower message)
              || PyStr.contains "refused" (PyStr.lower message) then
        raise (HTTPException 503
                 ("Ollama server not running at " ++ ollama_host settings
                  ++ ". Start with: ollama serve"))
      else
        raise (HTTPException 502 ("Ollama error: " ++ message))
  | _ =>
      raise (HTTPException 502 ("Ollama request failed: " ++ str_exn e))
  end.

Definition call_ollama (prompt : string) (model : option string)
    (max_tokens : option Z) (temperature : option Q) : io string :=
  if negb (is_ollama_available settings) then
    raise (HTTPException 503
             "Ollama is not configured. Set OLLAMA_HOST in .env")
  else
    let model := or_else model (default_ollama_model settings) in
    try_except
      (response <- generate w
         {| gen_model := model; gen_prompt := prompt;
            gen_options := [("temperature", opt_real temperature);
                            ("num_predict", opt_int max_tokens)] |} ;;
       text <- pure (getitem rt response "response") ;;
       pure (strip_of rt text))
      (ollama_except model).

End Providers.

(** A backend client, as the registry hands it out. *)
Definition provider_fn : Type :=
  Runtime -> Settings -> World ->
  string -> option string -> option Z -> option Q -> io string.

Definition PROVIDER_MAP : list (string * provider_fn) :=
  [("openai", call_openai);
   ("anthropic", call_anthropic);
   ("gemini", call_gemini);
   ("ollama", call_ollama)].

Definition get_provider_function (settings : Settings) (provider : string)
    : outcome provider_fn :=
  let provider := PyStr.lower provider in
  match assoc provider PROVIDER_MAP with
  | None =>
      let available := map fst PROVIDER_MAP in
      Raise (HTTPException 400
               ("Unsupported provider: '" ++ provider ++ "'. Available: "
                ++ PyStr.list_repr available))
  | Some f =>
      if String.eqb provider "ollama" && negb (is_ollama_available settings) then
        Raise (HTTPException 400
                 "Ollama provider requested but not configured. Set OLLAMA_HOST in .env")
      else Return f
  end.

(** ** main.py *)

Module AIRequest.
Record t := {
  provider : string;
  prompt : string;
  model : option string;
  max_tokens : option Z;
  temperature : option Q
}.
End AIRequest.

Module AIResponse.
Record t := {
  provider : string;
  model : string;
  response : string;
  prompt_tokens : option Z;
  completion_tokens : option Z
}.
End AIResponse.

(** A field of the posted JSON body: absent, [null], or a value of the
    field's type. *)
Inductive supplied (A : Type) : Type :=
| Omitted
| Null
| Given (a : A).
Arguments Omitted {A}.
Arguments Null {A}.
Arguments Given {A} a.

Module Body.
Record t := {
  provider : supplied string;
  prompt : supplied string;
  model : supplied string;
  max_tokens : supplied Z;
  temperature : supplied Q
}.
End Body.

(** A required field, [Field(..., <constraints>)]. *)
Definition required {A : Type} (ok : A -> bool) (f : supplied A) : option A :=
  match f with
  | Given a => if ok a then Some a else None
  | _ => None
  end.

(** An [Optional] field with a default, [Field(default, <constraints>)]:
    the constraints bear on a value, not on [null]. *)
Definition optional {A : Type} (default : option A) (ok : A -> bool)
    (f : supplied A) : option (option A) :=
  match f with
  | Omitted => Some default
  | Null => Some None
  | Given a => if ok a then Some (Some a) else None
  end.

Definition prompt_ok (s : string) : bool :=
  (1 <=? Z.of_nat (PyStr.len s)) && (Z.of_nat (PyStr.len s) <=? 10000).

Definition max_tokens_ok (n : Z) : bool := (1 <=? n) && (n <=? 4096).

Definition temperature_ok (x : Q) : bool := Qle_bool 0 x && Qle_bool x 2.

Definition any {A : Type} (_ : A) : bool := true.

(** Validation of a posted body against the [AIRequest] schema; [None] is
    a rejection. *)
Definition validate (b : Body.t) : option AIRequest.t :=
  match required any (Body.provider b),
        required prompt_ok (Body.prompt b),
        optional None any (Body.model b),
        optional (Some 500) max_tokens_ok (Body.max_tokens b),
        optional (Some (7 # 10)%Q) temperature_ok (Body.temperature b) with
  | Some provider, Some prompt, Some model, Some max_tokens, Some temperature =>
      Some {| AIRequest.provider := provider;
              AIRequest.prompt := prompt;
              AIRequest.model := model;
              AIRequest.max_tokens := max_tokens;
              AIRequest.temperature := temperature |}
  | _, _, _, _, _ => None
  end.

Definition INTERNAL_ERROR : string :=
  "Internal server error processing AI request".

Section Router.
Variable rt : Runtime.
Variable settings : Settings.
Variable w : World.

(** The body of the [try] of [chat_endpoint]. *)
Definition chat_route (request : AIRequest.t) : io AIResponse.t :=
  provider_func <-
    pure (get_provider_function settings
            (PyStr.lower (AIRequest.provider request))) ;;
  response_text <-
    provider_func rt settings w
      (AIRequest.prompt request) (AIRequest.model request)
      (AIRequest.max_tokens request) (AIRequest.temperature request) ;;
  ret {| AIResponse.provider := AIRequest.provider request;
         AIResponse.model := or_else (AIRequest.model request) "default";
         AIResponse.response := response_text;
         AIResponse.prompt_tokens := None;
         AIResponse.completion_tokens := None |}.

(** The two [except] clauses of [chat_endpoint]. *)
Definition chat_except (e : exn) : io AIResponse.t :=
  match e with
  | HTTPException _ _ => raise e
  | _ => raise (HTTPException 500 INTERNAL_ERROR)
  end.

Definition chat_endpoint (request : AIRequest.t) : io AIResponse.t :=
  try_except (chat_route request) chat_except.

(** What the caller of [POST /ai/chat] gets: the envelope, the status and
    detail of an [HTTPException], the framework's rejection of the body, or
    nothing.  [chat_endpoint] raises nothing but [HTTPException], so the
    third case below is there for totality. *)
Inductive reply : Type :=
| Ok200 (r : AIResponse.t)
| ErrorReply (status : Z) (detail : string)
| Unprocessable
| NoReply.

Definition post_ai_chat (b : Body.t) : reply * list backend_call :=
  match validate b with
  | None => (Unprocessable, [])
  | Some request =>
      match chat_endpoint request with
      | (Return r, t) => (Ok200 r, t)
      | (Raise (HTTPException status detail), t) => (ErrorReply status detail, t)
      | (Raise _, t) => (ErrorReply 500 "Internal Server Error", t)
      | (Hang, t) => (NoReply, t)
      end
  end.

End Router.

Module Health.
Record t := {
  status : string;
  providers : list (string * bool);
  ollama_host : option string
}.
End Health.

(** [GET /health] *)
Definition health_check (settings : Settings) : Health.t :=
  let providers :=
    [("openai", true);
     ("anthropic", true);
     ("gemini", true);
     ("ollama", is_ollama_available settings)] in
  {| Health.status := "healthy";
     Health.providers := providers;
     Health.ollama_host :=
       if is_ollama_available settings then Some (ollama_host settings)
       else None |}.

(** ** Sample worlds *)

(** A runtime with fixed texts, for evaluating the model. *)
Definition sample_runtime : Runtime :=
  {| exc_text := fun f =>
       match f with
       | KeyError _ => "key error"
       | IndexError => "list index out of range"
       | TypeError_subscript _ _ => "type error"
       | AttributeError _ _ => "attribute error"
       | TypeError_compare => "type error"
       | JSONDecodeError => "Expecting value: line 1 column 1 (char 0)"
       | TimeoutException => "timed out"
       end;
     value_text := fun _ => "<value>" |}.

Definition sample_settings : Settings := default_settings "sk-o" "sk-a" "sk-g".

Definition unconfigured : Settings := {|
  openai_api_key := "sk-o";
  anthropic_api_key := "sk-a";
  gemini_api_key := "sk-g";
  ollama_host := "";
  default_ollama_model := "llama3.2:3b";
  default_openai_model := "gpt-4o-mini";
  default_anthropic_model := "claude-3-5-sonnet-20241022";
  default_gemini_model := "gemini-1.5-flash";
  allowed_origins := ""
|}.

(** Every backend never answers. *)
Definition silent_world : World :=
  {| http := fun _ => Silent; ollama_generate := fun _ => Stalls |}.

Definition openai_reply (text : string) : json :=
  JObj [("choices", JArr [JObj [("message", JObj [("role", JStr "assistant");
                                                   ("content", JStr text)])]])].

Definition anthropic_reply (text : string) : json :=
  JObj [("content", JArr [JObj [("type", JStr "text"); ("text", JStr text)]])].

Definition gemini_reply (text : string) : json :=
  JObj [("candidates",
         JArr [JObj [("content", JObj [("parts", JArr [JObj [("text", JStr text)]])])]])].

Definition ollama_reply (text : string) : json :=
  JObj [("model", JStr "llama3.2:3b"); ("response", JStr text)].

(** Every backend answers with [text]. *)
Definition talking_world (text : string) : World :=
  {| http := fun c =>
       Responds {| status_code := 200;
                   status_error_text := "";
                   body := Some (if PyStr.contains "openai" (url c) then openai_reply text
                                 else if PyStr.contains "anthropic" (url c) then anthropic_reply text
                                 else gemini_reply text) |};
     ollama_generate := fun _ => Generates (ollama_reply text) |}.

(** Every cloud backend answers with [status] and [body]. *)
Definition failing_world (status : Z) (body : option json) : World :=
  {| http := fun _ =>
       Responds {| status_code := status; body := body;
                   status_error_text := "status error" |};
     ollama_generate := fun _ => Rejects "model not found" |}.

Definition api_error (detail : string) : json :=
  JObj [("error", JObj [("message", JStr detail); ("type", JStr "invalid_request_error")])].

Definition ask (provider : string) (model : supplied string) : Body.t :=
  {| Body.provider := Given provider; Body.prompt := Given "hi";
     Body.model := model; Body.max_tokens := Omitted;
     Body.temperature := Omitted |}.

Definition answer (provider model text : string) : AIResponse.t :=
  {| AIResponse.provider := provider; AIResponse.model := model;
     AIResponse.response := text; AIResponse.prompt_tokens := None;
     AIResponse.completion_tokens := None |}.

Definition hello (model : option string) : AIRequest.t :=
  {| AIRequest.provider := "openai"; AIRequest.prompt := "hi";
     AIRequest.model := model; AIRequest.max_tokens := Some 500;
     AIRequest.temperature := Some (7 # 10)%Q |}.


(** Every backend answers 200 with the document [v]. *)
Definition fixed_world (v : json) : World :=
  {| http := fun _ =>
       Responds {| status_code := 200; body := Some v;
                   status_error_text := "" |};
     ollama_generate := fun _ => Generates v |}.

Definition too_many_tokens : Body.t :=
  {| Body.provider := Given "openai"; Body.prompt := Given "hi";
     Body.model := Omitted; Body.max_tokens := Given 5000;
     Body.temperature := Omitted |}.

(** ** Notions used in the statements *)

Definition NOT_CONFIGURED : exn :=
  HTTPException 503 "Ollama is not configured. Set OLLAMA_HOST in .env".

(** The cloud clients, under the names their error messages use. *)
Definition cloud_clients : list (string * provider_fn) :=
  [("OpenAI", call_openai); ("Anthropic", call_anthropic); ("Gemini", call_gemini)].

(** Computations that issue no backend call. *)
Definition quiet {A : Type} (m : io A) : Prop := snd m = [].

(** The part of the Gemini URL before the model. *)
Definition GEMINI_MODELS : string :=
  "https://generativelanguage.googleapis.com/v1beta/models/".

(** The entry [k] of the JSON object a cloud call sends. *)
Definition payload_field (c : http_call) (k : string) : option json :=
  match payload c with
  | JObj fields => assoc k fields
  | _ => None
  end.

(** A computation that returned, or raised a plain exception. *)
Definition plain {A : Type} (m : io A) : Prop :=
  match fst m with
  | Return _ => True
  | Raise (Exception _) => True
  | _ => False
  end.

(** The request [req] sent under the provider name [p]. *)
Definition with_provider (p : string) (req : AIRequest.t) : AIRequest.t :=
  {| AIRequest.provider := p;
     AIRequest.prompt := AIRequest.prompt req;
     AIRequest.model := AIRequest.model req;
     AIRequest.max_tokens := AIRequest.max_tokens req;
     AIRequest.temperature := AIRequest.temperature req |}.

(** The result [m] with the envelope's provider set to [p]. *)
Definition relabel (p : string) (m : io AIResponse.t) : io AIResponse.t :=
  match m with
  | (Return r, t) =>
      (Return {| AIResponse.provider := p;
                 AIResponse.model := AIResponse.model r;
                 AIResponse.response := AIResponse.response r;
                 AIResponse.prompt_tokens := AIResponse.prompt_tokens r;
                 AIResponse.completion_tokens := AIResponse.completion_tokens r |},
       t)
  | _ => m
  end.

(** The statuses the local client fails with. *)
Definition ollama_status (status : Z) : Prop :=
  status = 400 \/ status = 502 \/ status = 503.

(** Every cloud backend drops the connection with [text]; the local
    library raises an exception of its own with [text]. *)
Definition broken_world (text : string) : World :=
  {| http := fun _ => Fails text; ollama_generate := fun _ => Breaks text |}.

Definition anthropic_body (max_tokens : supplied Z) : Body.t :=
  {| Body.provider := Given "Anthropic"; Body.prompt := Given "hi";
     Body.model := Omitted; Body.max_tokens := max_tokens;
     Body.temperature := Omitted |}.

(** [OLLAMA_HOST] set to a blank, a no-break space (U+00A0) and a tab. *)
Definition default_settings_blank_host : Settings := {|
  openai_api_key := "sk-o";
  anthropic_api_key := "sk-a";
  gemini_api_key := "sk-g";
  ollama_host :=
    String " " (String "194" (String "160" (String "009" EmptyString)));
  default_ollama_model := "llama3.2:3b";
  default_openai_model := "gpt-4o-mini";
  default_anthropic_model := "claude-3-5-sonnet-20241022";
  default_gemini_model := "gemini-1.5-flash";
  allowed_origins := ""
|}.

Definition settings_with_origins (origins : string) : Settings := {|
  openai_api_key := "sk-o";
  anthropic_api_key := "sk-a";
  gemini_api_key := "sk-g";
  ollama_host := "http://localhost:11434";
  default_ollama_model := "llama3.2:3b";
  default_openai_model := "gpt-4o-mini";
  default_anthropic_model := "claude-3-5-sonnet-20241022";
  default_gemini_model := "gemini-1.5-flash";
  allowed_origins := origins
|}.

(** * Properties *)

(** ** Strings *)

Example lower_mixed : PyStr.lower "OpenAI" = "openai".
Proof. reflexivity. Qed.

Example strip_hello : PyStr.strip "  hello world  " = "hello world".
Proof. reflexivity. Qed.

Example strip_blank : PyStr.strip "   " = "".
Proof. reflexivity. Qed.

(** A no-break space (U+00A0) in front and an ideographic space (U+3000)
    behind are stripped; a zero-width space (U+200B) is not white space. *)
Example strip_unicode :
  PyStr.strip (String "194" (String "160"
                 ("hi" ++ String "227" (String "128" (String "128" ""))))) = "hi"
  /\ PyStr.strip (String "226" (String "128" (String "139" "hi"))) =
     String "226" (String "128" (String "139" "hi")).
Proof. split; reflexivity. Qed.

(** [len] counts characters, not bytes: "e" with an acute accent (U+00E9,
    two bytes) between "a" and "b". *)
Example len_unicode :
  PyStr.len ("a" ++ String "195" (String "169" "b")) = 3%nat.
Proof. reflexivity. Qed.

Example contains_mid : PyStr.contains "refused" "dial tcp: connection refused" = true.
Proof. reflexivity. Qed.

Example remove_prefix : PyStr.remove_all "gemini-" "gemini-1.5-flash" = "1.5-flash".
Proof. reflexivity. Qed.

Example keys_repr :
  PyStr.list_repr ["openai"; "anthropic"] = "['openai', 'anthropic']".
Proof. reflexivity. Qed.

Lemma lower_char_idem (c : ascii) :
  PyStr.lower_char (PyStr.lower_char c) = PyStr.lower_char c.
Proof.
  destruct c as [[] [] [] [] [] [] [] []]; reflexivity.
Qed.

Lemma lower_idem (s : string) : PyStr.lower (PyStr.lower s) = PyStr.lower s.
Proof.
  induction s as [|c t IH]; simpl; [reflexivity|].
  now rewrite lower_char_idem, IH.
Qed.

Lemma chars_cons (c : ascii) (t : string) :
  PyStr.chars (String c t) =
  match PyStr.chars t with
  | [] => [String c EmptyString]
  | ch :: rest =>
      if PyStr.starts_cont t then String c ch :: rest
      else String c EmptyString :: ch :: rest
  end.
Proof. reflexivity. Qed.

Lemma chars_head (c : ascii) (t : string) :
  exists x rest, PyStr.chars (String c t) = String c x :: rest.
Proof.
  rewrite chars_cons. destruct (PyStr.chars t) as [|ch rest]; [eauto|].
  destruct (PyStr.starts_cont t); eauto.
Qed.





Lemma proper_tail_ok (ch : string) : PyStr.proper ch = true -> PyStr.tail_ok ch = true.
Proof.
  destruct ch as [|c t]; simpl; [discriminate|].
  intros H. apply andb_prop in H. tauto.
Qed.

Lemma chars_chunked (s : string) : PyStr.chunked (PyStr.chars s).
Proof.
  induction s as [|c t IH]; [exact I|].
  rewrite chars_cons. destruct t as [|c' t'].
  - simpl. split; [reflexivity | constructor].
  - destruct (chars_head c' t') as [x [rest E]]. rewrite E in *.
    destruct IH as [Hx Hrest]. simpl in Hx. simpl PyStr.starts_cont.
    destruct (PyStr.is_cont c') eqn:Hc; simpl.
    + split; [now rewrite Hc|exact Hrest].
    + split; [reflexivity|]. constructor; [|exact Hrest].
      simpl. now rewrite Hc.
Qed.

Lemma chunked_app (a b : list string) :
  PyStr.chunked (a ++ b) -> PyStr.chunked a /\ PyStr.chunked b.
Proof.
  destruct a as [|x a]; simpl; [tauto|].
  intros [Hx H]. apply Forall_app in H. destruct H as [Ha Hb].
  split; [tauto|].
  destruct b as [|y b]; [exact I|].
  inversion Hb; subst. split; [now apply proper_tail_ok | assumption].
Qed.

Lemma chars_chunk (t : string) :
  forall c u,
    PyStr.all_cont t = true -> PyStr.starts_cont u = false ->
    PyStr.chars (String c (t ++ u)) = String c t :: PyStr.chars u.
Proof.
  induction t as [|d t IH]; intros c u Ht Hu.
  - simpl append. rewrite chars_cons, Hu. now destruct (PyStr.chars u).
  - simpl in Ht. apply andb_prop in Ht. destruct Ht as [Hd Ht].
    simpl append. rewrite chars_cons. rewrite (IH d u Ht Hu).
    simpl PyStr.starts_cont. now rewrite Hd.
Qed.

(** Characters put together are cut apart as they were. *)
(** Characters put together are cut apart as they were. *)
Lemma chars_flatten (l : list string) :
  PyStr.chunked l -> PyStr.chars (PyStr.flatten l) = l.
Proof.
  induction l as [|ch rest IH]; [reflexivity|].
  intros [Hch Hrest]. destruct ch as [|c t]; [discriminate|]. simpl in Hch.
  simpl PyStr.flatten. rewrite chars_chunk; [| exact Hch |].
  - f_equal. apply IH. destruct rest as [|y r]; [exact I|].
    inversion Hrest; subst. split; [now apply proper_tail_ok | assumption].
  - destruct rest as [|y r]; [reflexivity|]. inversion Hrest as [|? ? Hy _]; subst.
    destruct y as [|d x]; [discriminate|]. simpl in *.
    apply andb_prop in Hy. destruct Hy as [Hy _].
    now apply negb_true_iff in Hy.
Qed.

(* list-level PyStr.strip *)
Lemma lstrip_chars_split (l : list string) :
  exists a, l = (a ++ PyStr.lstrip_chars l)%list /\ forallb PyStr.is_space a = true.
Proof.
  induction l as [|ch rest [a [Hl Ha]]]; simpl.
  - exists []. split; reflexivity.
  - destruct (PyStr.is_space ch) eqn:Hc.
    + exists (ch :: a). simpl. rewrite Hc, Ha. split; [now f_equal | reflexivity].
    + exists []. split; reflexivity.
Qed.


Lemma rstrip_chars_split (l : list string) :
  exists b, l = (PyStr.rstrip_chars l ++ b)%list /\ forallb PyStr.is_space b = true.
Proof.
  induction l as [|ch rest [b [Hl Hb]]]; simpl.
  - exists []. split; reflexivity.
  - destruct (PyStr.rstrip_chars rest) as [|y r] eqn:Hr; simpl in *.
    + destruct (PyStr.is_space ch) eqn:Hc.
      * exists (ch :: b). simpl. rewrite Hc, Hb. split; [now f_equal | reflexivity].
      * exists b. simpl. split; [now f_equal | exact Hb].
    + exists b. split; [now f_equal | exact Hb].
Qed.





Lemma strip_chars (s : string) :
  exists a b,
    PyStr.chars s = (a ++ PyStr.chars (PyStr.strip s) ++ b)%list
    /\ PyStr.chars (PyStr.strip s) = PyStr.rstrip_chars (PyStr.lstrip_chars (PyStr.chars s))
    /\ PyStr.chunked a /\ PyStr.chunked b
    /\ forallb PyStr.is_space a = true /\ forallb PyStr.is_space b = true.
Proof.
  destruct (lstrip_chars_split (PyStr.chars s)) as [a [Ha Hsa]].
  destruct (rstrip_chars_split (PyStr.lstrip_chars (PyStr.chars s))) as [b [Hb Hsb]].
  pose proof (chars_chunked s) as Hc. rewrite Ha, Hb in Hc.
  apply chunked_app in Hc. destruct Hc as [Hca Hc].
  apply chunked_app in Hc. destruct Hc as [Hcm Hcb].
  assert (E : PyStr.chars (PyStr.strip s) = PyStr.rstrip_chars (PyStr.lstrip_chars (PyStr.chars s))).
  { unfold PyStr.strip. now apply chars_flatten. }
  exists a, b. rewrite E. repeat split; try assumption.
  now rewrite <- Hb.
Qed.



Lemma strip_blank_chars (l : list string) :
  match PyStr.rstrip_chars (PyStr.lstrip_chars l) with [] => true | _ => false end =
  forallb PyStr.is_space l.
Proof.
  induction l as [|ch rest IH]; [reflexivity|]. simpl.
  destruct (PyStr.is_space ch) eqn:Hc; [exact IH|].
  simpl. destruct (PyStr.rstrip_chars rest); [rewrite Hc|]; reflexivity.
Qed.

(** What [strip] leaves is empty exactly for a text of white space. *)
Lemma truthy_strip (s : string) :
  PyStr.truthy (PyStr.strip s) = negb (PyStr.all_space s).
Proof.
  unfold PyStr.all_space. rewrite <- strip_blank_chars.
  destruct (strip_chars s) as [a [b [_ [E _]]]].
  rewrite <- E. destruct (PyStr.strip s) as [|c t]; [reflexivity|].
  destruct (chars_head c t) as [x [r ->]]. reflexivity.
Qed.

Lemma strip_empty : PyStr.strip "" = "".
Proof. reflexivity. Qed.

(** ** Registry *)


Lemma empty_host_unavailable (s : Settings) :
  ollama_host s = "" -> is_ollama_available s = false.
Proof.
  unfold is_ollama_available. now intros ->.
Qed.

Lemma registry_raises_http (s : Settings) (p : string) (e : exn) :
  get_provider_function s p = Raise e ->
  exists status detail, e = HTTPException status detail.
Proof.
  unfold get_provider_function.
  destruct (assoc (PyStr.lower p) PROVIDER_MAP).
  - destruct (_ && _); [|discriminate]. intros [= <-]. eauto.
  - intros [= <-]. eauto.
Qed.



(** ** Local client and its guard *)

(** C7.  With an empty [ollama_host] the local client fails with status 503
    and has issued no backend call. *)
Theorem call_ollama_unconfigured (rt : Runtime) (s : Settings) (w : World)
    (prompt : string) (model : option string) (max_tokens : option Z)
    (temperature : option Q) :
  ollama_host s = "" ->
  call_ollama rt s w prompt model max_tokens temperature =
  (Raise (HTTPException 503 "Ollama is not configured. Set OLLAMA_HOST in .env"),
   []).
Proof.
  intros H. unfold call_ollama.
  now rewrite (empty_host_unavailable s H).
Qed.

Lemma call_ollama_unconfigured_witness :
  call_ollama sample_runtime unconfigured (talking_world "hello") "hi" None
    (Some 500) (Some (7 # 10)%Q) =
  (Raise (HTTPException 503 "Ollama is not configured. Set OLLAMA_HOST in .env"),
   []).
Proof.
  apply call_ollama_unconfigured. reflexivity.
Defined.

(** The handler of the local client never reports a missing configuration. *)
Lemma ollama_except_configured (s : Settings) (model : string) (e : exn) :
  fst (ollama_except s model e) <> Raise NOT_CONFIGURED.
Proof.
  unfold ollama_except, NOT_CONFIGURED.
  destruct e; simpl; try discriminate.
  destruct (PyStr.contains "model not found" _); simpl; [discriminate|].
  destruct (_ || _); simpl; discriminate.
Qed.

Lemma try_except_outcome {A : Type} (m : io A) (h : exn -> io A) (bad : exn) :
  (forall e, fst (h e) <> Raise bad) ->
  (forall t, m <> (Raise bad, t)) ->
  fst (try_except m h) <> Raise bad.
Proof.
  intros Hh Hm. unfold try_except.
  destruct m as [[a|e|] t]; simpl; try discriminate.
  specialize (Hh e). destruct (h e) as [r t']. exact Hh.
Qed.

(** C10.  When the registry resolves "ollama", the client it returns is
    [call_ollama], the endpoint is available, and invoking the client under
    the same settings never fails with the not-configured error. *)
Theorem resolved_ollama_is_configured (rt : Runtime) (s : Settings) (w : World)
    (p : string) (f : provider_fn) (prompt : string) (model : option string)
    (max_tokens : option Z) (temperature : option Q) :
  PyStr.lower p = "ollama" ->
  get_provider_function s p = Return f ->
  f = call_ollama
  /\ is_ollama_available s = true
  /\ fst (f rt s w prompt model max_tokens temperature) <>
     Raise (HTTPException 503 "Ollama is not configured. Set OLLAMA_HOST in .env").
Proof.
  intros Hp. unfold get_provider_function. rewrite Hp. simpl.
  destruct (is_ollama_available s) eqn:Hav; simpl; [|discriminate].
  intros [= <-]. split; [reflexivity|]. split; [reflexivity|].
  unfold call_ollama. rewrite Hav. simpl.
  apply (try_except_outcome _ _ NOT_CONFIGURED).
  - apply ollama_except_configured.
  - intros t. unfold bind, generate, pure.
    destruct (ollama_generate w _) as [v|text|text|]; simpl; try discriminate.
    destruct (getitem rt v "response") as [x|e|] eqn:Hg; simpl; try discriminate.
    + destruct (strip_of rt x) as [y|e|] eqn:Hs; simpl; try discriminate.
      destruct x; simpl in Hs; try discriminate; injection Hs as <-; discriminate.
    + unfold getitem, fail in Hg.
      destruct v; try (injection Hg as <-; discriminate).
      destruct (assoc "response" fields); [discriminate|].
      injection Hg as <-; discriminate.
Qed.

Lemma resolved_ollama_is_configured_witness :
  call_ollama = call_ollama
  /\ is_ollama_available sample_settings = true
  /\ fst (call_ollama sample_runtime sample_settings (failing_world 500 None)
            "hi" None (Some 500) None) <>
     Raise (HTTPException 503 "Ollama is not configured. Set OLLAMA_HOST in .env").
Proof.
  apply (resolved_ollama_is_configured sample_runtime sample_settings
           (failing_world 500 None) "OLLAMA" call_ollama "hi" None (Some 500) None);
    reflexivity.
Defined.

(** ** Router *)

Lemma chat_except_raises (e : exn) :
  exists status detail, chat_except e = (Raise (HTTPException status detail), []).
Proof.
  destruct e; do 2 eexists; reflexivity.
Qed.

(** X7.  Whatever [chat_endpoint] raises is an [HTTPException]. *)
Lemma chat_endpoint_raises_http (rt : Runtime) (s : Settings) (w : World)
    (req : AIRequest.t) (e : exn) (t : list backend_call) :
  chat_endpoint rt s w req = (Raise e, t) ->
  exists status detail, e = HTTPException status detail.
Proof.
  unfold chat_endpoint, try_except.
  destruct (chat_route rt s w req) as [[r|e'|] t']; try discriminate.
  destruct (chat_except_raises e') as [c [d ->]].
  intros [= <- _]. eauto.
Qed.

(** A successful route returns the envelope built from the request and the
    client's text. *)
Lemma chat_endpoint_success (rt : Runtime) (s : Settings) (w : World)
    (req : AIRequest.t) (r : AIResponse.t) (t : list backend_call) :
  chat_endpoint rt s w req = (Return r, t) ->
  exists text,
    r = answer (AIRequest.provider req)
          (or_else (AIRequest.model req) "default") text.
Proof.
  unfold chat_endpoint, try_except, chat_route, bind, pure.
  destruct (get_provider_function s _) as [f|e|]; simpl.
  - destruct (f rt s w _ _ _ _) as [[text|e|] t']; simpl.
    + intros [= <- _]. now exists text.
    + destruct (chat_except_raises e) as [c [d ->]]. discriminate.
    + discriminate.
  - destruct (chat_except_raises e) as [c [d ->]]. discriminate.
  - discriminate.
Qed.

(** C2, as the code has it.  On success the [model] of the response is the
    caller's model when that is a non-empty string, and the literal
    "default" when the caller gave none or gave the empty string; it
    depends on the request alone. *)
Theorem response_model_echo (rt : Runtime) (s : Settings) (w : World)
    (req : AIRequest.t) (r : AIResponse.t) (t : list backend_call) :
  chat_endpoint rt s w req = (Return r, t) ->
  (forall m, AIRequest.model req = Some m -> m <> "" -> AIResponse.model r = m)
  /\ (AIRequest.model req = None \/ AIRequest.model req = Some "" ->
      AIResponse.model r = "default").
Proof.
  intros H. destruct (chat_endpoint_success _ _ _ _ _ _ H) as [text ->]. simpl.
  split.
  - intros m -> Hm. destruct m; [contradiction|reflexivity].
  - intros [-> | ->]; reflexivity.
Qed.

Lemma response_model_echo_witness :
  (exists r t,
     chat_endpoint sample_runtime sample_settings (talking_world "ok")
       (hello (Some "gpt-4o")) = (Return r, t)
     /\ AIResponse.model r = "gpt-4o")
  /\ (exists r t,
        chat_endpoint sample_runtime sample_settings (talking_world "ok")
          (hello None) = (Return r, t)
        /\ AIResponse.model r = "default").
Proof.
  split.
  - exists (answer "openai" "gpt-4o" "ok").
    exists (snd (chat_endpoint sample_runtime sample_settings
                   (talking_world "ok") (hello (Some "gpt-4o")))).
    assert (H : chat_endpoint sample_runtime sample_settings (talking_world "ok")
                  (hello (Some "gpt-4o")) =
                (Return (answer "openai" "gpt-4o" "ok"),
                 snd (chat_endpoint sample_runtime sample_settings
                        (talking_world "ok") (hello (Some "gpt-4o")))))
      by (vm_compute; reflexivity).
    split; [exact H|].
    apply (proj1 (response_model_echo _ _ _ _ _ _ H) "gpt-4o");
      [reflexivity | discriminate].
  - exists (answer "openai" "default" "ok").
    exists (snd (chat_endpoint sample_runtime sample_settings
                   (talking_world "ok") (hello None))).
    assert (H : chat_endpoint sample_runtime sample_settings (talking_world "ok")
                  (hello None) =
                (Return (answer "openai" "default" "ok"),
                 snd (chat_endpoint sample_runtime sample_settings
                        (talking_world "ok") (hello None))))
      by (vm_compute; reflexivity).
    split; [exact H|].
    apply (proj2 (response_model_echo _ _ _ _ _ _ H)). left. reflexivity.
Defined.

(** C2, as stated, fails: a caller who supplies the empty string as the
    model gets "default" back, not the string supplied. *)
Lemma response_model_echo_counterexample :
  AIRequest.model (hello (Some "")) = Some ""
  /\ fst (chat_endpoint sample_runtime sample_settings (talking_world "ok")
            (hello (Some ""))) =
     Return (answer "openai" "default" "ok")
  /\ AIResponse.model (answer "openai" "default" "ok") <> "".
Proof.
  split; [reflexivity|]. split; [vm_compute; reflexivity | discriminate].
Qed.

(** C4.  A failure of the registry reaches the caller as it is; an
    [HTTPException] raised by the client reaches the caller as it is; any
    other exception of the client becomes status 500 with the fixed text
    "Internal server error processing AI request", whatever the exception
    was. *)
Theorem chat_endpoint_error_policy (rt : Runtime) (s : Settings) (w : World)
    (req : AIRequest.t) :
  (forall e,
     get_provider_function s (PyStr.lower (AIRequest.provider req)) = Raise e ->
     chat_endpoint rt s w req = (Raise e, []))
  /\ (forall f e t,
        get_provider_function s (PyStr.lower (AIRequest.provider req)) = Return f ->
        f rt s w (AIRequest.prompt req) (AIRequest.model req)
          (AIRequest.max_tokens req) (AIRequest.temperature req) = (Raise e, t) ->
        chat_endpoint rt s w req =
        (Raise match e with
               | HTTPException status detail => HTTPException status detail
               | _ => HTTPException 500 "Internal server error processing AI request"
               end, t)).
Proof.
  unfold chat_endpoint, try_except, chat_route, bind, pure. split.
  - intros e He. destruct (registry_raises_http _ _ _ He) as [c [d ->]].
    now rewrite He.
  - intros f e t -> Hf. simpl. rewrite Hf. simpl.
    destruct e; simpl; now rewrite app_nil_r.
Qed.

Lemma chat_endpoint_error_policy_witness :
  chat_endpoint sample_runtime unconfigured silent_world
    {| AIRequest.provider := "Ollama"; AIRequest.prompt := "hi";
       AIRequest.model := None; AIRequest.max_tokens := Some 500;
       AIRequest.temperature := None |} =
  (Raise (HTTPException 400
            "Ollama provider requested but not configured. Set OLLAMA_HOST in .env"),
   [])
  /\ fst (chat_endpoint sample_runtime sample_settings
            (failing_world 429 None) (hello None)) =
     Raise (HTTPException 500 "Internal server error processing AI request").
Proof.
  split.
  - apply (proj1 (chat_endpoint_error_policy sample_runtime unconfigured
                    silent_world _)).
    reflexivity.
  - rewrite (proj2 (chat_endpoint_error_policy sample_runtime sample_settings
                      (failing_world 429 None) (hello None))
               call_openai
               (Exception "Expecting value: line 1 column 1 (char 0)")
               (snd (call_openai sample_runtime sample_settings
                       (failing_world 429 None) "hi" None (Some 500)
                       (Some (7 # 10)%Q))));
      [reflexivity | reflexivity | vm_compute; reflexivity].
Defined.

(** ** Backend clients *)

Lemma non_2xx (r : Response) :
  status_code r < 200 \/ 299 < status_code r -> is_success r = false.
Proof.
  unfold is_success. intros H.
  destruct (200 <=? status_code r) eqn:E1; [|reflexivity].
  destruct (status_code r <=? 299) eqn:E2; [|reflexivity].
  apply Z.leb_le in E1, E2. lia.
Qed.

(** A cloud client whose backend answers [r], not a success, hands the
    response to its [except httpx.HTTPStatusError] clause. *)
Lemma cloud_status_error (rt : Runtime) (s : Settings) (w : World)
    (prompt : string) (model : option string) (n : Z) (temperature : option Q)
    (r : Response) (name : string) (f : provider_fn) :
  In (name, f) cloud_clients ->
  (forall c, http w c = Responds r) ->
  is_success r = false ->
  fst (f rt s w prompt model (Some n) temperature) =
  fst (cloud_except rt name
         (HTTPStatusError (status_error_text r) r)).
Proof.
  intros Hin Hw Hr. simpl in Hin.
  destruct Hin as [E|[E|[E|[]]]]; injection E as <- <-;
    [unfold call_openai | unfold call_anthropic | unfold call_gemini];
    match goal with
    | |- context [cloud_except rt ?label] =>
        generalize (cloud_except rt label); intros h
    end;
    unfold try_except, bind, post, pure; simpl; rewrite Hw;
    unfold raise_for_status; rewrite Hr;
    destruct (h _); reflexivity.
Qed.

(** What the [except httpx.HTTPStatusError] clause gives when the body is
    a JSON object: status as received and "<Provider> API Error: <detail>",
    the detail being the string under [error.message] when the body has
    one, and the text of the status error itself when the body has no
    [error] entry or its [error] object has no [message] entry. *)
Lemma cloud_api_error (rt : Runtime) (s : Settings) (w : World)
    (prompt : string) (model : option string) (n : Z) (temperature : option Q)
    (r : Response) (fields : list (string * json))
    (name : string) (f : provider_fn) :
  In (name, f) cloud_clients ->
  (forall c, http w c = Responds r) ->
  status_code r < 200 \/ 299 < status_code r ->
  body r = Some (JObj fields) ->
  (forall efields d,
     assoc "error" fields = Some (JObj efields) ->
     assoc "message" efields = Some (JStr d) ->
     fst (f rt s w prompt model (Some n) temperature) =
     Raise (HTTPException (status_code r) (name ++ " API Error: " ++ d)))
  /\ (assoc "error" fields = None
      \/ (exists efields, assoc "error" fields = Some (JObj efields)
                          /\ assoc "message" efields = None) ->
      fst (f rt s w prompt model (Some n) temperature) =
      Raise (HTTPException (status_code r)
               (name ++ " API Error: " ++ status_error_text r))).
Proof.
  intros Hin Hw Hr Hbody.
  rewrite (cloud_status_error rt s w prompt model n temperature r name f
             Hin Hw (non_2xx r Hr)).
  unfold cloud_except, bind, pure, response_json, dict_get. rewrite Hbody. simpl.
  split.
  - intros efields d -> Hm. simpl. now rewrite Hm.
  - intros [-> | [efields [-> Hm]]]; simpl; [reflexivity|].
    now rewrite Hm.
Qed.

Lemma cloud_api_error_witness :
  fst (call_anthropic sample_runtime sample_settings
         (failing_world 429 (Some (api_error "Rate limit reached")))
         "hi" None (Some 500) None) =
  Raise (HTTPException 429 "Anthropic API Error: Rate limit reached")
  /\ fst (call_gemini sample_runtime sample_settings
            (failing_world 404 (Some (JObj [("code", JInt 404)])))
            "hi" None (Some 500) None) =
     Raise (HTTPException 404 "Gemini API Error: status error").
Proof.
  split.
  - apply (proj1 (cloud_api_error sample_runtime sample_settings
                    (failing_world 429 (Some (api_error "Rate limit reached")))
                    "hi" None 500 None
                    {| status_code := 429;
                       body := Some (api_error "Rate limit reached");
                       status_error_text := "status error" |}
                    [("error", JObj [("message", JStr "Rate limit reached");
                                     ("type", JStr "invalid_request_error")])]
                    "Anthropic" call_anthropic
                    (or_intror (or_introl eq_refl))
                    (fun _ => eq_refl)
                    (or_intror eq_refl)
                    eq_refl)
             [("message", JStr "Rate limit reached");
              ("type", JStr "invalid_request_error")]
             "Rate limit reached");
      reflexivity.
  - apply (proj2 (cloud_api_error sample_runtime sample_settings
                    (failing_world 404 (Some (JObj [("code", JInt 404)])))
                    "hi" None 500 None
                    {| status_code := 404;
                       body := Some (JObj [("code", JInt 404)]);
                       status_error_text := "status error" |}
                    [("code", JInt 404)]
                    "Gemini" call_gemini
                    (or_intror (or_intror (or_introl eq_refl)))
                    (fun _ => eq_refl)
                    (or_intror eq_refl)
                    eq_refl)).
    left. reflexivity.
Defined.

(** C5, on the code.  A backend answers 429 with the JSON body
    [{"error": "Rate limit exceeded"}], which has no [error.message].  The
    claim asks for status 429 and a generic description; instead each cloud
    client raises a plain exception from inside its [except] clause
    ([str] has no [get]), and the caller of the endpoint gets status 500.
    With the same status and [{"error": {"message": ...}}] the client does
    answer 429. *)
Theorem cloud_error_without_message_escapes :
  fst (call_openai sample_runtime sample_settings
         (failing_world 429 (Some (JObj [("error", JStr "Rate limit exceeded")])))
         "hi" None (Some 500) (Some (7 # 10)%Q)) =
  Raise (Exception "attribute error")
  /\ fst (call_anthropic sample_runtime sample_settings
            (failing_world 429 (Some (JObj [("error", JStr "Rate limit exceeded")])))
            "hi" None (Some 500) (Some (7 # 10)%Q)) =
     Raise (Exception "attribute error")
  /\ fst (call_gemini sample_runtime sample_settings
            (failing_world 429 (Some (JObj [("error", JStr "Rate limit exceeded")])))
            "hi" None (Some 500) (Some (7 # 10)%Q)) =
     Raise (Exception "attribute error")
  /\ fst (post_ai_chat sample_runtime sample_settings
            (failing_world 429 (Some (JObj [("error", JStr "Rate limit exceeded")])))
            (ask "openai" Omitted)) =
     ErrorReply 500 "Internal server error processing AI request"
  /\ fst (post_ai_chat sample_runtime sample_settings
            (failing_world 429 (Some (api_error "Rate limit exceeded")))
            (ask "openai" Omitted)) =
     ErrorReply 429 "OpenAI API Error: Rate limit exceeded".
Proof.
  repeat split.
Qed.







(** ** Timeouts *)

Lemma timeout_config_order :
  (connect TIMEOUT_CONFIG < read TIMEOUT_CONFIG)%Q
  /\ connect TIMEOUT_CONFIG == 10 /\ read TIMEOUT_CONFIG == 30.
Proof.
  repeat split; reflexivity.
Qed.

Lemma quiet_pure {A : Type} (o : outcome A) : quiet (pure o).
Proof. reflexivity. Qed.

Lemma quiet_raise {A : Type} (e : exn) : quiet (@raise A e).
Proof. reflexivity. Qed.

Lemma quiet_bind {A B : Type} (m : io A) (k : A -> io B) :
  quiet m -> (forall a, quiet (k a)) -> quiet (bind m k).
Proof.
  unfold quiet, bind. destruct m as [[a|e|] t]; simpl; intros -> Hk;
    try reflexivity.
  specialize (Hk a). destruct (k a) as [r t']. exact Hk.
Qed.

Lemma bind_pure_return {A B : Type} (a : A) (k : A -> io B) :
  bind (pure (Return a)) k = k a.
Proof.
  unfold bind, pure. destruct (k a); reflexivity.
Qed.

Lemma quiet_cloud_except (rt : Runtime) (name : string) (e : exn) :
  quiet (cloud_except rt name e).
Proof.
  unfold cloud_except. destruct e; try apply quiet_raise.
  repeat (apply quiet_bind; [apply quiet_pure | intros ?]).
  apply quiet_raise.
Qed.

(** One call, then a continuation and a handler that issue none. *)
Lemma one_call {A B : Type} (o : outcome A) (c : backend_call)
    (k : A -> io B) (h : exn -> io B) :
  (forall a, quiet (k a)) -> (forall e, quiet (h e)) ->
  snd (try_except (bind (o, [c]) k) h) = [c].
Proof.
  unfold quiet, try_except, bind. intros Hk Hh.
  destruct o as [a|e|]; simpl.
  - specialize (Hk a). destruct (k a) as [[b|e|] t']; simpl in *; subst;
      try reflexivity.
    specialize (Hh e). destruct (h e) as [r t']. simpl in *. now subst.
  - specialize (Hh e). destruct (h e) as [r t']. simpl in *. now subst.
  - reflexivity.
Qed.

Ltac quiet_chain :=
  repeat (apply quiet_bind; [apply quiet_pure | intros ?]); apply quiet_pure.

(** X9.  A cloud client issues one call, under [TIMEOUT_CONFIG]. *)
Lemma cloud_call_under_timeout (rt : Runtime) (s : Settings) (w : World)
    (prompt : string) (model : option string) (n : Z) (temperature : option Q)
    (name : string) (f : provider_fn) :
  In (name, f) cloud_clients ->
  exists c, snd (f rt s w prompt model (Some n) temperature) = [HttpPost c]
            /\ timeout c = TIMEOUT_CONFIG.
Proof.
  intros Hin. simpl in Hin.
  destruct Hin as [E|[E|[E|[]]]]; injection E as <- <-;
    [unfold call_openai | unfold call_anthropic; rewrite bind_pure_return
     | unfold call_gemini];
    cbv zeta; unfold post;
    eexists; (split; [apply one_call | reflexivity]);
    try (intros ?; apply quiet_cloud_except);
    intros ?; quiet_chain.
Qed.

(** X10.  A cloud client whose backend never answers fails with status 502. *)
Lemma cloud_silent_backend (rt : Runtime) (s : Settings) (w : World)
    (prompt : string) (model : option string) (n : Z) (temperature : option Q)
    (name : string) (f : provider_fn) :
  In (name, f) cloud_clients ->
  (forall c, http w c = Silent) ->
  fst (f rt s w prompt model (Some n) temperature) =
  Raise (HTTPException 502
           (name ++ " request failed: " ++ exc_text rt TimeoutException)).
Proof.
  intros Hin Hw. simpl in Hin.
  destruct Hin as [E|[E|[E|[]]]]; injection E as <- <-;
    [unfold call_openai | unfold call_anthropic | unfold call_gemini];
    unfold try_except, bind, post, pure; simpl; rewrite Hw; reflexivity.
Qed.

(** The local client whose backend never answers does not return: its one
    call carries no timeout. *)
Lemma ollama_stalled_backend (rt : Runtime) (s : Settings) (w : World)
    (prompt : string) (model : option string) (max_tokens : option Z)
    (temperature : option Q) :
  is_ollama_available s = true ->
  (forall c, ollama_generate w c = Stalls) ->
  fst (call_ollama rt s w prompt model max_tokens temperature) = Hang.
Proof.
  intros Hav Hw. unfold call_ollama. rewrite Hav.
  unfold try_except, bind, generate, pure. simpl. now rewrite Hw.
Qed.

(** C3, on the code.  With backends that never answer, the three cloud
    clients fail with status 502, while the local client, configured, makes
    its call and never returns. *)
Theorem call_ollama_without_timeout :
  fst (call_openai sample_runtime sample_settings silent_world
         "hi" None (Some 500) (Some (7 # 10)%Q)) =
  Raise (HTTPException 502 "OpenAI request failed: timed out")
  /\ fst (call_anthropic sample_runtime sample_settings silent_world
            "hi" None (Some 500) (Some (7 # 10)%Q)) =
     Raise (HTTPException 502 "Anthropic request failed: timed out")
  /\ fst (call_gemini sample_runtime sample_settings silent_world
            "hi" None (Some 500) (Some (7 # 10)%Q)) =
     Raise (HTTPException 502 "Gemini request failed: timed out")
  /\ call_ollama sample_runtime sample_settings silent_world
       "hi" None (Some 500) (Some (7 # 10)%Q) =
     (Hang,
      [OllamaGenerate
         {| gen_model := "llama3.2:3b"; gen_prompt := "hi";
            gen_options := [("temperature", JReal (7 # 10));
                            ("num_predict", JInt 500)] |}]).
Proof.
  repeat split.
Qed.

(** ** Request validation *)

Lemma max_tokens_out_of_range (n : Z) :
  n < 1 \/ 4096 < n -> max_tokens_ok n = false.
Proof.
  unfold max_tokens_ok. intros H.
  destruct (1 <=? n) eqn:E1; [|reflexivity].
  destruct (n <=? 4096) eqn:E2; [|reflexivity].
  apply Z.leb_le in E1, E2. lia.
Qed.

Lemma prompt_out_of_range (p : string) :
  p = "" \/ 10000 < Z.of_nat (PyStr.len p) -> prompt_ok p = false.
Proof.
  unfold prompt_ok. intros [-> | H]; [reflexivity|].
  destruct (Z.of_nat (PyStr.len p) <=? 10000) eqn:E.
  - apply Z.leb_le in E. lia.
  - apply andb_false_r.
Qed.

Lemma temperature_out_of_range (x : Q) :
  (x < 0 \/ 2 < x)%Q -> temperature_ok x = false.
Proof.
  unfold temperature_ok. intros [H | H].
  - destruct (Qle_bool 0 x) eqn:E; [|reflexivity].
    apply Qle_bool_iff in E. exfalso. exact (Qlt_not_le _ _ H E).
  - destruct (Qle_bool x 2) eqn:E; [|apply andb_false_r].
    apply Qle_bool_iff in E. exfalso. exact (Qlt_not_le _ _ H E).
Qed.

Lemma validate_rejects (b : Body.t) :
  (exists n, Body.max_tokens b = Given n /\ max_tokens_ok n = false)
  \/ (exists p, Body.prompt b = Given p /\ prompt_ok p = false)
  \/ (exists x, Body.temperature b = Given x /\ temperature_ok x = false) ->
  validate b = None.
Proof.
  destruct b as [pv pr md mt tp]. unfold validate, required, optional. simpl.
  intros [[n [-> Hn]] | [[p [-> Hp]] | [x [-> Hx]]]];
    [rewrite Hn | rewrite Hp | rewrite Hx];
    repeat match goal with
      | |- context [match ?v with _ => _ end] => destruct v
      end;
    reflexivity.
Qed.

(** What validation guarantees of a request it lets through. *)
Lemma validate_sound (b : Body.t) (req : AIRequest.t) :
  validate b = Some req ->
  prompt_ok (AIRequest.prompt req) = true
  /\ (forall n, AIRequest.max_tokens req = Some n -> 1 <= n <= 4096)
  /\ (forall x, AIRequest.temperature req = Some x -> (0 <= x /\ x <= 2)%Q).
Proof.
  unfold validate, required, optional.
  destruct (Body.provider b); try discriminate.
  destruct (Body.prompt b) as [| |p]; try discriminate.
  destruct (prompt_ok p) eqn:Hp; try discriminate. simpl.
  assert (Hmt : forall n, max_tokens_ok n = true -> 1 <= n <= 4096).
  { intros n H. apply andb_prop in H. destruct H as [H1 H2].
    apply Z.leb_le in H1, H2. lia. }
  assert (Htp : forall x, temperature_ok x = true -> (0 <= x /\ x <= 2)%Q).
  { intros x H. apply andb_prop in H. destruct H as [H1 H2].
    split; now apply Qle_bool_iff. }
  destruct (Body.model b); simpl;
    (destruct (Body.max_tokens b) as [| |n]; simpl;
     [ | | destruct (max_tokens_ok n) eqn:Hn; try discriminate ]);
    (destruct (Body.temperature b) as [| |x]; simpl;
     [ | | destruct (temperature_ok x) eqn:Hx; try discriminate ]);
    intros [= <-]; simpl; (split; [exact Hp|]); split;
    intros ? [= <-]; auto; try lia; try (split; discriminate).
Qed.

Lemma in_range_ok :
  (forall q, 1 <= Z.of_nat (PyStr.len q) <= 10000 -> prompt_ok q = true)
  /\ (forall n, 1 <= n <= 4096 -> max_tokens_ok n = true)
  /\ (forall x, (0 <= x /\ x <= 2)%Q -> temperature_ok x = true).
Proof.
  unfold prompt_ok, max_tokens_ok, temperature_ok. repeat split.
  - intros q H. apply andb_true_intro. split; apply Z.leb_le; lia.
  - intros n H. apply andb_true_intro. split; apply Z.leb_le; lia.
  - intros x [H1 H2]. apply andb_true_intro. split; now apply Qle_bool_iff.
Qed.

(** The request validation builds from a body it accepts. *)
Lemma validate_value (b : Body.t) (p q : string) :
  Body.provider b = Given p -> Body.prompt b = Given q ->
  prompt_ok q = true ->
  (forall n, Body.max_tokens b = Given n -> max_tokens_ok n = true) ->
  (forall x, Body.temperature b = Given x -> temperature_ok x = true) ->
  validate b =
  Some {| AIRequest.provider := p;
          AIRequest.prompt := q;
          AIRequest.model :=
            match Body.model b with Given m => Some m | _ => None end;
          AIRequest.max_tokens :=
            match Body.max_tokens b with
            | Omitted => Some 500 | Null => None | Given n => Some n
            end;
          AIRequest.temperature :=
            match Body.temperature b with
            | Omitted => Some (7 # 10)%Q | Null => None | Given x => Some x
            end |}.
Proof.
  intros Hp Hq Hpo Hm Ht.
  unfold validate, required, optional. rewrite Hp, Hq. simpl. rewrite Hpo.
  destruct (Body.model b); simpl;
    (destruct (Body.max_tokens b) as [| |n]; simpl;
     [ | | rewrite (Hm n eq_refl) ]);
    (destruct (Body.temperature b) as [| |x]; simpl;
     [ | | rewrite (Ht x eq_refl) ]);
    reflexivity.
Qed.

(** C8.  A body whose [max_tokens] lies outside 1..4096, whose [prompt] is
    empty or longer than 10000 characters, or whose [temperature] lies
    outside 0..2 is rejected and no backend call is issued.  A body that
    gives a provider and a prompt of 1 to 10000 characters, and whose
    [max_tokens] and [temperature], when given, lie in range, is accepted:
    the request then has [max_tokens] 500 when the body omits it and
    [temperature] 0.7 when the body omits it, and the given values
    otherwise. *)
Theorem request_validation (rt : Runtime) (s : Settings) (w : World)
    (b : Body.t) :
  ((exists n, Body.max_tokens b = Given n /\ (n < 1 \/ 4096 < n))
   \/ (exists p, Body.prompt b = Given p
                 /\ (p = "" \/ 10000 < Z.of_nat (PyStr.len p)))
   \/ (exists x, Body.temperature b = Given x /\ (x < 0 \/ 2 < x)%Q) ->
   post_ai_chat rt s w b = (Unprocessable, []))
  /\ (forall p q,
        Body.provider b = Given p -> Body.prompt b = Given q ->
        1 <= Z.of_nat (PyStr.len q) <= 10000 ->
        (forall n, Body.max_tokens b = Given n -> 1 <= n <= 4096) ->
        (forall x, Body.temperature b = Given x -> (0 <= x /\ x <= 2)%Q) ->
        exists req,
          validate b = Some req
          /\ AIRequest.provider req = p /\ AIRequest.prompt req = q
          /\ (Body.max_tokens b = Omitted -> AIRequest.max_tokens req = Some 500)
          /\ (Body.temperature b = Omitted ->
              AIRequest.temperature req = Some (7 # 10)%Q)
          /\ (forall n, Body.max_tokens b = Given n ->
              AIRequest.max_tokens req = Some n)
          /\ (forall x, Body.temperature b = Given x ->
              AIRequest.temperature req = Some x)).
Proof.
  split.
  - intros H. unfold post_ai_chat. rewrite validate_rejects; [reflexivity|].
    destruct H as [[n [E H]] | [[p [E H]] | [x [E H]]]].
    + left. exists n. split; [exact E | now apply max_tokens_out_of_range].
    + right. left. exists p. split; [exact E | now apply prompt_out_of_range].
    + right. right. exists x. split; [exact E | now apply temperature_out_of_range].
  - intros p q Hp Hq Hlen Hm Ht.
    destruct in_range_ok as [Hok1 [Hok2 Hok3]].
    eexists. split.
    + apply (validate_value b p q Hp Hq (Hok1 q Hlen)).
      * intros n Hn. apply Hok2. now apply Hm.
      * intros x Hx. apply Hok3. now apply Ht.
    + simpl. repeat split.
      * now intros ->.
      * now intros ->.
      * now intros n ->.
      * now intros x ->.
Qed.

Lemma request_validation_witness :
  post_ai_chat sample_runtime sample_settings (talking_world "ok")
    too_many_tokens = (Unprocessable, [])
  /\ exists req,
       validate (ask "openai" Omitted) = Some req
       /\ AIRequest.max_tokens req = Some 500
       /\ AIRequest.temperature req = Some (7 # 10)%Q.
Proof.
  split.
  - apply (proj1 (request_validation sample_runtime sample_settings
                    (talking_world "ok") too_many_tokens)).
    left. exists 5000. split; [reflexivity | right; lia].
  - destruct (proj2 (request_validation sample_runtime sample_settings
                       (talking_world "ok") (ask "openai" Omitted))
                "openai" "hi" eq_refl eq_refl)
      as [req [Hv [_ [_ [Hmt [Htp _]]]]]].
    + vm_compute. split; discriminate.
    + intros n Hn. discriminate Hn.
    + intros x Hx. discriminate Hx.
    + exists req. split; [exact Hv|].
      split; [apply Hmt | apply Htp]; reflexivity.
Defined.

(** * Further properties of the code *)

(** ** config.py *)

(** X3.  The local endpoint counts as configured exactly when [ollama_host] has
    a character that is not white space: a host of blanks only closes the
    registry to "ollama" and makes the client fail without a call, like an
    empty one. *)
Theorem blank_host_disables_ollama (rt : Runtime) (s : Settings) (w : World)
    (prompt : string) (model : option string) (max_tokens : option Z)
    (temperature : option Q) :
  is_ollama_available s = negb (PyStr.all_space (ollama_host s))
  /\ (PyStr.all_space (ollama_host s) = true ->
      get_provider_function s "ollama" =
      Raise (HTTPException 400
               "Ollama provider requested but not configured. Set OLLAMA_HOST in .env")
      /\ call_ollama rt s w prompt model max_tokens temperature =
         (Raise (HTTPException 503
                   "Ollama is not configured. Set OLLAMA_HOST in .env"), [])).
Proof.
  assert (H : is_ollama_available s = negb (PyStr.all_space (ollama_host s)))
    by apply truthy_strip.
  split; [exact H|].
  intros Hb. rewrite Hb in H. simpl in H. split.
  - unfold get_provider_function. simpl. now rewrite H.
  - unfold call_ollama. now rewrite H.
Qed.

Lemma blank_host_disables_ollama_witness :
  get_provider_function (default_settings_blank_host) "ollama" =
  Raise (HTTPException 400
           "Ollama provider requested but not configured. Set OLLAMA_HOST in .env").
Proof.
  apply (proj2 (blank_host_disables_ollama sample_runtime
                  default_settings_blank_host silent_world "hi" None None None)).
  reflexivity.
Defined.




Lemma split_on_whole (sep : ascii) (x : string) :
  PyStr.has_char sep x = false -> PyStr.split_on sep x = [x].
Proof.
  induction x as [|c t IH]; simpl; [reflexivity|].
  intros H. apply orb_false_elim in H. destruct H as [Hc Ht].
  now rewrite Hc, (IH Ht).
Qed.

Lemma split_on_app (sep : ascii) (x r : string) :
  PyStr.has_char sep x = false ->
  PyStr.split_on sep (x ++ String sep r) = x :: PyStr.split_on sep r.
Proof.
  induction x as [|c t IH]; simpl.
  - intros _. now rewrite Ascii.eqb_refl.
  - intros H. apply orb_false_elim in H. destruct H as [Hc Ht].
    now rewrite Hc, (IH Ht).
Qed.

Lemma split_on_join (l : list string) :
  l <> [] ->
  Forall (fun x => PyStr.has_char "," x = false) l ->
  PyStr.split_on "," (PyStr.join "," l) = l.
Proof.
  induction l as [|x rest IH]; [congruence|].
  intros _ Hall. inversion Hall as [|? ? Hx Hrest]; subst.
  destruct rest as [|y rest'].
  - simpl. now apply split_on_whole.
  - change (PyStr.join "," (x :: y :: rest'))
      with (x ++ String "," (PyStr.join "," (y :: rest'))).
    rewrite (split_on_app _ _ _ Hx). f_equal.
    apply IH; [discriminate | exact Hrest].
Qed.



(** X2.  Round trip: a list of origins, each non-empty, free of commas and
    trimmed, written to [allowed_origins] with commas between them, is read
    back as it was. *)
Theorem cors_origins_round_trip (s : Settings) (l : list string) :
  (forall o, In o l ->
     o <> "" /\ PyStr.has_char "," o = false /\ PyStr.strip o = o) ->
  allowed_origins s = PyStr.join "," l ->
  cors_origins_list s = l.
Proof.
  intros Hl Hs. unfold cors_origins_list. rewrite Hs.
  destruct l as [|x rest]; [reflexivity|].
  rewrite split_on_join.
  - assert (Hkeep : forall l', (forall o, In o l' -> In o (x :: rest)) ->
              map PyStr.strip
                (filter (fun o => PyStr.truthy (PyStr.strip o)) l') = l').
    { induction l' as [|o l' IH]; [reflexivity|]. intros Hsub.
      destruct (Hl o (Hsub o (or_introl eq_refl))) as [Hne [_ Hst]].
      simpl. rewrite Hst. destruct o; [contradiction|]. simpl.
      rewrite Hst. f_equal. apply IH. intros o' Ho'. apply Hsub. now right. }
    apply Hkeep. auto.
  - discriminate.
  - apply Forall_forall. intros o Ho. exact (proj1 (proj2 (Hl o Ho))).
Qed.

Lemma cors_origins_round_trip_witness :
  cors_origins_list
    (settings_with_origins "http://localhost:3000,http://localhost:8000") =
  ["http://localhost:3000"; "http://localhost:8000"].
Proof.
  apply cors_origins_round_trip; [|reflexivity].
  intros o [<- | [<- | []]]; (split; [discriminate | split; reflexivity]).
Defined.

(** ** Registry and health report *)

Lemma registry_failure_400 (s : Settings) (p : string) (e : exn) :
  get_provider_function s p = Raise e ->
  exists detail, e = HTTPException 400 detail.
Proof.
  unfold get_provider_function.
  destruct (assoc (PyStr.lower p) PROVIDER_MAP).
  - destruct (_ && _); [|discriminate]. intros [= <-]. eauto.
  - intros [= <-]. eauto.
Qed.

(** X4.  The health report names the providers of the registry, in its order,
    and flags a provider as available exactly when the registry resolves
    its name. *)
Theorem health_matches_registry (s : Settings) (name : string) (flag : bool) :
  In (name, flag) (Health.providers (health_check s)) ->
  map fst (Health.providers (health_check s)) = map fst PROVIDER_MAP
  /\ (flag = true <-> exists f, get_provider_function s name = Return f).
Proof.
  intros Hin. split; [reflexivity|].
  simpl in Hin.
  destruct Hin as [E|[E|[E|[E|[]]]]]; injection E as <- <-.
  1-3: split; [intros _; eexists; reflexivity | reflexivity].
  unfold get_provider_function. simpl.
  destruct (is_ollama_available s); simpl; split; try reflexivity.
  - intros _. eexists. reflexivity.
  - discriminate.
  - intros [f Hf]. discriminate.
Qed.

Lemma health_matches_registry_witness :
  map fst (Health.providers (health_check unconfigured)) = map fst PROVIDER_MAP
  /\ (false = true <-> exists f, get_provider_function unconfigured "ollama" = Return f).
Proof.
  apply (health_matches_registry unconfigured "ollama" false).
  simpl. right. right. right. left. reflexivity.
Defined.

(** The health report shows the local endpoint's address when the
    registry resolves "ollama", and hides it otherwise. *)
Theorem health_host_shown_iff_resolvable (s : Settings) :
  (Health.ollama_host (health_check s) = Some (ollama_host s)
   /\ get_provider_function s "ollama" = Return call_ollama)
  \/ (Health.ollama_host (health_check s) = None
      /\ get_provider_function s "ollama" =
         Raise (HTTPException 400
                  "Ollama provider requested but not configured. Set OLLAMA_HOST in .env")).
Proof.
  unfold health_check, get_provider_function. simpl.
  destruct (is_ollama_available s); [left | right]; split; reflexivity.
Qed.

(** ** Router *)

Lemma quiet_ollama_except (s : Settings) (model : string) (e : exn) :
  quiet (ollama_except s model e).
Proof.
  unfold ollama_except. destruct e; try apply quiet_raise.
  destruct (PyStr.contains "model not found" _); [apply quiet_raise|].
  destruct (_ || _); apply quiet_raise.
Qed.

Lemma quiet_chat_except (e : exn) : quiet (chat_except e).
Proof.
  destruct e; reflexivity.
Qed.

(** Every registered client issues at most one backend call. *)
Lemma client_calls_once (rt : Runtime) (s : Settings) (w : World)
    (prompt : string) (model : option string) (max_tokens : option Z)
    (temperature : option Q) (k : string) (f : provider_fn) :
  In (k, f) PROVIDER_MAP ->
  (length (snd (f rt s w prompt model max_tokens temperature)) <= 1)%nat.
Proof.
  intros Hin. simpl in Hin.
  destruct Hin as [E|[E|[E|[E|[]]]]]; injection E as <- <-.
  - unfold call_openai. cbv zeta. unfold post.
    rewrite one_call; [simpl; lia | intros ?; quiet_chain
                      | intros ?; apply quiet_cloud_except].
  - unfold call_anthropic. destruct max_tokens as [n|].
    + rewrite bind_pure_return. cbv zeta. unfold post.
      rewrite one_call; [simpl; lia | intros ?; quiet_chain
                        | intros ?; apply quiet_cloud_except].
    + simpl. lia.
  - unfold call_gemini. cbv zeta. unfold post.
    rewrite one_call; [simpl; lia | intros ?; quiet_chain
                      | intros ?; apply quiet_cloud_except].
  - unfold call_ollama. destruct (is_ollama_available s); simpl negb; cbv iota.
    + cbv zeta. unfold generate.
      rewrite one_call; [simpl; lia | intros ?; quiet_chain
                        | intros ?; apply quiet_ollama_except].
    + simpl. lia.
Qed.

Lemma registry_returns_registered (s : Settings) (p : string) (f : provider_fn) :
  get_provider_function s p = Return f ->
  exists k, In (k, f) PROVIDER_MAP /\ PyStr.lower p = k.
Proof.
  unfold get_provider_function.
  destruct (assoc (PyStr.lower p) PROVIDER_MAP) as [g|] eqn:Ha; [|discriminate].
  destruct (_ && _); [discriminate|]. intros [= <-].
  exists (PyStr.lower p). split; [|reflexivity].
  revert Ha. generalize (PyStr.lower p). generalize PROVIDER_MAP.
  induction l as [|[k' v] rest IH]; simpl; [discriminate|].
  intros k. destruct (String.eqb k k') eqn:E.
  - apply String.eqb_eq in E. intros [= ->]. left. now subst.
  - intros H. right. now apply IH.
Qed.

(** The calls of a request are those of the client it is routed to. *)
Lemma chat_endpoint_calls (rt : Runtime) (s : Settings) (w : World)
    (req : AIRequest.t) :
  snd (chat_endpoint rt s w req) =
  match get_provider_function s (PyStr.lower (AIRequest.provider req)) with
  | Return f =>
      snd (f rt s w (AIRequest.prompt req) (AIRequest.model req)
             (AIRequest.max_tokens req) (AIRequest.temperature req))
  | _ => []
  end.
Proof.
  unfold chat_endpoint, try_except, chat_route, bind, pure, ret.
  destruct (get_provider_function s _) as [f|e|]; simpl.
  - destruct (f rt s w _ _ _ _) as [[text|e|] t]; simpl;
      try (now rewrite ?app_nil_r).
    pose proof (quiet_chat_except e) as Hq. unfold quiet in Hq.
    destruct (chat_except e) as [r t']. simpl in *. subst.
    now rewrite app_nil_r.
  - pose proof (quiet_chat_except e) as Hq. unfold quiet in Hq.
    destruct (chat_except e) as [r t']. simpl in *. now subst.
  - reflexivity.
Qed.

(** X8.  No retry and no fan-out: one request to the endpoint, accepted or
    not, leads to at most one backend call, and to none when the provider
    does not resolve. *)
Theorem one_backend_call_per_request (rt : Runtime) (s : Settings) (w : World)
    (b : Body.t) :
  (length (snd (post_ai_chat rt s w b)) <= 1)%nat
  /\ (forall req e,
        validate b = Some req ->
        get_provider_function s (PyStr.lower (AIRequest.provider req)) = Raise e ->
        snd (post_ai_chat rt s w b) = []).
Proof.
  assert (Hsnd : forall req, validate b = Some req ->
            snd (post_ai_chat rt s w b) = snd (chat_endpoint rt s w req)).
  { intros req Hv. unfold post_ai_chat. rewrite Hv.
    destruct (chat_endpoint rt s w req) as [[r|[]|] t]; reflexivity. }
  split.
  - destruct (validate b) as [req|] eqn:Hv.
    + rewrite (Hsnd req eq_refl), chat_endpoint_calls.
      destruct (get_provider_function s _) as [f|e|] eqn:Hf; simpl; try lia.
      destruct (registry_returns_registered _ _ _ Hf) as [k [Hin _]].
      now apply (client_calls_once rt s w _ _ _ _ k f).
    + unfold post_ai_chat. rewrite Hv. simpl. lia.
  - intros req e Hv He.
    rewrite (Hsnd req Hv), chat_endpoint_calls. now rewrite He.
Qed.

Lemma one_backend_call_per_request_witness :
  snd (post_ai_chat sample_runtime sample_settings (talking_world "ok")
         (ask "mistral" Omitted)) = [].
Proof.
  apply (proj2 (one_backend_call_per_request sample_runtime sample_settings
                  (talking_world "ok") (ask "mistral" Omitted))
           {| AIRequest.provider := "mistral"; AIRequest.prompt := "hi";
              AIRequest.model := None; AIRequest.max_tokens := Some 500;
              AIRequest.temperature := Some (7 # 10)%Q |}
           (HTTPException 400
              "Unsupported provider: 'mistral'. Available: ['openai', 'anthropic', 'gemini', 'ollama']"));
    reflexivity.
Defined.

Lemma chat_endpoint_raises_http_witness :
  exists status detail,
    HTTPException 500 INTERNAL_ERROR = HTTPException status detail.
Proof.
  apply (chat_endpoint_raises_http sample_runtime sample_settings
           (failing_world 503 None) (hello None)
           (HTTPException 500 INTERNAL_ERROR)
           (snd (chat_endpoint sample_runtime sample_settings
                   (failing_world 503 None) (hello None)))).
  vm_compute. reflexivity.
Defined.

(** X5.  Provider names are matched without regard to letter case from end to
    end: two requests that differ only in the case of [provider] lead to
    the same backend calls and the same text or error, and each answer
    carries the provider name as its request spelled it. *)
Theorem provider_case_insensitive (rt : Runtime) (s : Settings) (w : World)
    (req : AIRequest.t) (p1 p2 : string) :
  PyStr.lower p1 = PyStr.lower p2 ->
  chat_endpoint rt s w (with_provider p2 req) =
  relabel p2 (chat_endpoint rt s w (with_provider p1 req)).
Proof.
  intros H. unfold chat_endpoint, try_except, chat_route, bind, pure, ret.
  simpl. rewrite H.
  destruct (get_provider_function s _) as [f|e|]; simpl.
  - destruct (f rt s w _ _ _ _) as [[text|e|] t]; simpl; try reflexivity.
    destruct (chat_except_raises e) as [c [d ->]]. reflexivity.
  - destruct (chat_except_raises e) as [c [d ->]]. reflexivity.
  - reflexivity.
Qed.

Lemma provider_case_insensitive_witness :
  chat_endpoint sample_runtime sample_settings (talking_world "ok")
    (with_provider "OpenAI" (hello None)) =
  relabel "OpenAI"
    (chat_endpoint sample_runtime sample_settings (talking_world "ok")
       (with_provider "openai" (hello None))).
Proof.
  apply provider_case_insensitive. reflexivity.
Defined.

(** X6.  The envelope of a successful request: the provider as the caller
    spelled it, the text exactly as the resolved client returned it, and
    no token counts. *)
Theorem response_envelope (rt : Runtime) (s : Settings) (w : World)
    (req : AIRequest.t) (r : AIResponse.t) (t : list backend_call) :
  chat_endpoint rt s w req = (Return r, t) ->
  AIResponse.provider r = AIRequest.provider req
  /\ AIResponse.prompt_tokens r = None
  /\ AIResponse.completion_tokens r = None
  /\ exists f,
       get_provider_function s (AIRequest.provider req) = Return f
       /\ f rt s w (AIRequest.prompt req) (AIRequest.model req)
            (AIRequest.max_tokens req) (AIRequest.temperature req) =
          (Return (AIResponse.response r), t).
Proof.
  unfold chat_endpoint, try_except, chat_route, bind, pure, ret.
  assert (Hl : get_provider_function s (PyStr.lower (AIRequest.provider req)) =
               get_provider_function s (AIRequest.provider req)).
  { unfold get_provider_function. now rewrite lower_idem. }
  rewrite Hl. clear Hl.
  destruct (get_provider_function s (AIRequest.provider req)) as [f|e|]; simpl.
  - destruct (f rt s w (AIRequest.prompt req) (AIRequest.model req)
                (AIRequest.max_tokens req) (AIRequest.temperature req))
      as [[text|e|] t'] eqn:Hf; simpl.
    + intros [= <- <-]. simpl. repeat split.
      exists f. split; [reflexivity|]. now rewrite app_nil_r.
    + destruct (chat_except_raises e) as [c [d ->]]. discriminate.
    + discriminate.
  - destruct (chat_except_raises e) as [c [d ->]]. discriminate.
  - discriminate.
Qed.

Lemma response_envelope_witness :
  AIResponse.provider (answer "openai" "default" "ok") = "openai"
  /\ AIResponse.prompt_tokens (answer "openai" "default" "ok") = None
  /\ AIResponse.completion_tokens (answer "openai" "default" "ok") = None
  /\ exists f,
       get_provider_function sample_settings "openai" = Return f
       /\ f sample_runtime sample_settings (talking_world "ok") "hi" None
            (Some 500) (Some (7 # 10)%Q) =
          (Return "ok",
           snd (chat_endpoint sample_runtime sample_settings
                  (talking_world "ok") (hello None))).
Proof.
  apply (response_envelope sample_runtime sample_settings (talking_world "ok")
           (hello None) (answer "openai" "default" "ok")).
  vm_compute. reflexivity.
Defined.

(** ** Cloud clients *)

(** X11.  A cloud client whose transport raises (network error, dropped
    connection) fails with status 502 and the message
    "<Provider> request failed: <text of the exception>". *)
Theorem cloud_transport_failure (rt : Runtime) (s : Settings) (w : World)
    (prompt : string) (model : option string) (n : Z) (temperature : option Q)
    (text : string) (name : string) (f : provider_fn) :
  In (name, f) cloud_clients ->
  (forall c, http w c = Fails text) ->
  fst (f rt s w prompt model (Some n) temperature) =
  Raise (HTTPException 502 (name ++ " request failed: " ++ text)).
Proof.
  intros Hin Hw. simpl in Hin.
  destruct Hin as [E|[E|[E|[]]]]; injection E as <- <-;
    [unfold call_openai | unfold call_anthropic | unfold call_gemini];
    unfold try_except, bind, post, pure; simpl; rewrite Hw; reflexivity.
Qed.

Lemma cloud_transport_failure_witness :
  fst (call_gemini sample_runtime sample_settings
         (broken_world "All connection attempts failed")
         "hi" None (Some 500) None) =
  Raise (HTTPException 502 "Gemini request failed: All connection attempts failed").
Proof.
  apply (cloud_transport_failure sample_runtime sample_settings
           (broken_world "All connection attempts failed") "hi" None 500 None
           "All connection attempts failed" "Gemini" call_gemini).
  - simpl. right. right. left. reflexivity.
  - intros c. reflexivity.
Defined.

Lemma plain_pure_bind {A B : Type} (o : outcome A) (k : A -> io B) :
  plain (pure o) -> (forall a, plain (k a)) -> plain (bind (pure o) k).
Proof.
  unfold plain, bind, pure. destruct o as [a|e|]; simpl; try tauto.
  intros _ Hk. specialize (Hk a). destruct (k a) as [r t]. exact Hk.
Qed.

Lemma plain_getitem (rt : Runtime) (v : json) (k : string) :
  plain (pure (getitem rt v k)).
Proof.
  unfold plain, pure, getitem, fail.
  destruct v; simpl; try exact I. destruct (assoc k fields); exact I.
Qed.

Lemma plain_getitem0 (rt : Runtime) (v : json) : plain (pure (getitem0 rt v)).
Proof.
  unfold plain, pure, getitem0, fail.
  destruct v as [| | | |[|c t]|[|x l]|]; exact I.
Qed.

Lemma plain_strip_of (rt : Runtime) (v : json) : plain (pure (strip_of rt v)).
Proof.
  unfold plain, pure, strip_of, fail. destruct v; exact I.
Qed.

Lemma plain_response_json (rt : Runtime) (r : Response) :
  plain (pure (response_json rt r)).
Proof.
  unfold plain, pure, response_json, fail. destruct (body r); exact I.
Qed.

Ltac plain_chain :=
  repeat (apply plain_pure_bind;
          [first [apply plain_getitem | apply plain_getitem0
                 | apply plain_response_json] | intros ?]);
  apply plain_strip_of.

(** A cloud [try] block whose call is answered with a success either
    returns or ends in the client's 502. *)
Lemma cloud_try_success (rt : Runtime) (name : string) (c : http_call)
    (r : Response) (k : Response -> io string) :
  plain (k r) ->
  (exists text, fst (try_except (bind (Return r, [HttpPost c]) k)
                       (cloud_except rt name)) = Return text)
  \/ (exists detail,
        fst (try_except (bind (Return r, [HttpPost c]) k)
               (cloud_except rt name)) =
        Raise (HTTPException 502 (name ++ " request failed: " ++ detail))).
Proof.
  intros Hk. unfold plain in Hk.
  unfold try_except, bind.
  destruct (k r) as [[text|e|] t]; simpl in *; try contradiction.
  - left. now exists text.
  - destruct e; try contradiction. right. now exists message.
Qed.

(** X12.  A cloud client whose backend answers with a success status never
    lets a malformed body escape: whatever the body holds, the client
    returns a text or fails with status 502 and a message that starts
    "<Provider> request failed: ". *)
Theorem cloud_success_body (rt : Runtime) (s : Settings) (w : World)
    (prompt : string) (model : option string) (n : Z) (temperature : option Q)
    (r : Response) (name : string) (f : provider_fn) :
  In (name, f) cloud_clients ->
  (forall c, http w c = Responds r) ->
  200 <= status_code r <= 299 ->
  (exists text, fst (f rt s w prompt model (Some n) temperature) = Return text)
  \/ (exists detail,
        fst (f rt s w prompt model (Some n) temperature) =
        Raise (HTTPException 502 (name ++ " request failed: " ++ detail))).
Proof.
  intros Hin Hw Hst.
  assert (Hr : is_success r = true).
  { unfold is_success. apply andb_true_intro. split; apply Z.leb_le; lia. }
  simpl in Hin.
  destruct Hin as [E|[E|[E|[]]]]; injection E as <- <-;
    [unfold call_openai | unfold call_anthropic; rewrite bind_pure_return
     | unfold call_gemini];
    cbv zeta; unfold post; rewrite Hw;
    apply (cloud_try_success rt _ _ r);
    unfold raise_for_status; rewrite Hr; rewrite bind_pure_return; plain_chain.
Qed.

Lemma cloud_success_body_witness :
  (exists text,
     fst (call_openai sample_runtime sample_settings
            (fixed_world (JObj [("choices", JArr [])])) "hi" None (Some 500) None) =
     Return text)
  \/ (exists detail,
        fst (call_openai sample_runtime sample_settings
               (fixed_world (JObj [("choices", JArr [])])) "hi" None (Some 500) None) =
        Raise (HTTPException 502 ("OpenAI" ++ " request failed: " ++ detail))).
Proof.
  apply (cloud_success_body sample_runtime sample_settings
           (fixed_world (JObj [("choices", JArr [])])) "hi" None 500 None
           {| status_code := 200; body := Some (JObj [("choices", JArr [])]);
              status_error_text := "" |}
           "OpenAI" call_openai).
  - simpl. left. reflexivity.
  - intros c. reflexivity.
  - simpl. lia.
Defined.

Lemma validate_fields (b : Body.t) (req : AIRequest.t) :
  validate b = Some req ->
  Body.provider b = Given (AIRequest.provider req)
  /\ Body.prompt b = Given (AIRequest.prompt req)
  /\ (forall n, Body.max_tokens b = Given n -> AIRequest.max_tokens req = Some n)
  /\ (Body.max_tokens b = Null -> AIRequest.max_tokens req = None).
Proof.
  unfold validate, required, optional.
  destruct (Body.provider b) as [| |pv]; try discriminate.
  destruct (Body.prompt b) as [| |p]; try discriminate.
  destruct (prompt_ok p); try discriminate.
  destruct (Body.model b); simpl;
    (destruct (Body.max_tokens b) as [| |n]; simpl;
     [ | | destruct (max_tokens_ok n); try discriminate ]);
    (destruct (Body.temperature b) as [| |x]; simpl;
     [ | | destruct (temperature_ok x); try discriminate ]);
    intros [= <-]; simpl; repeat split;
    try discriminate; intros ? [= <-]; reflexivity.
Qed.

(** X14.  The Anthropic client sends [max_tokens] clamped into 1..4096, in one
    call; for a request that passed validation the clamp changes nothing
    and the caller's number is sent as it is. *)
Theorem anthropic_clamps_max_tokens (rt : Runtime) (s : Settings) (w : World)
    (prompt : string) (model : option string) (n : Z) (temperature : option Q) :
  (exists c m,
     snd (call_anthropic rt s w prompt model (Some n) temperature) = [HttpPost c]
     /\ payload_field c "max_tokens" = Some (JInt m)
     /\ m = Z.max 1 (Z.min n 4096)
     /\ 1 <= m <= 4096)
  /\ (forall b req,
        validate b = Some req -> Body.max_tokens b = Given n ->
        exists c,
          snd (call_anthropic rt s w (AIRequest.prompt req) (AIRequest.model req)
                 (AIRequest.max_tokens req) (AIRequest.temperature req)) =
          [HttpPost c]
          /\ payload_field c "max_tokens" = Some (JInt n)).
Proof.
  assert (Hcall : forall p md k tp,
            exists c,
              snd (call_anthropic rt s w p md (Some k) tp) = [HttpPost c]
              /\ payload_field c "max_tokens" = Some (JInt (Z.max 1 (Z.min k 4096)))).
  { intros p md k tp. unfold call_anthropic. rewrite bind_pure_return.
    cbv zeta. unfold post. eexists. split.
    - apply one_call; [intros ?; quiet_chain | intros ?; apply quiet_cloud_except].
    - reflexivity. }
  split.
  - destruct (Hcall prompt model n temperature) as [c [Hc Hp]].
    exists c, (Z.max 1 (Z.min n 4096)). repeat split; try assumption; lia.
  - intros b req Hv Hn.
    destruct (validate_fields b req Hv) as [_ [_ [Hmt _]]].
    rewrite (Hmt n Hn).
    destruct (validate_sound b req Hv) as [_ [Hrange _]].
    specialize (Hrange n (Hmt n Hn)).
    destruct (Hcall (AIRequest.prompt req) (AIRequest.model req) n
                (AIRequest.temperature req)) as [c [Hc Hp]].
    exists c. split; [exact Hc|]. rewrite Hp. do 2 f_equal. lia.
Qed.

Lemma anthropic_clamps_max_tokens_witness :
  exists c,
    snd (call_anthropic sample_runtime sample_settings (talking_world "ok")
           "hi" None (Some 4096) (Some (7 # 10)%Q)) = [HttpPost c]
    /\ payload_field c "max_tokens" = Some (JInt 4096).
Proof.
  apply (proj2 (anthropic_clamps_max_tokens sample_runtime sample_settings
                  (talking_world "ok") "hi" None 4096 None)
           (anthropic_body (Given 4096))
           {| AIRequest.provider := "Anthropic"; AIRequest.prompt := "hi";
              AIRequest.model := None; AIRequest.max_tokens := Some 4096;
              AIRequest.temperature := Some (7 # 10)%Q |});
    reflexivity.
Defined.

(** X15.  A body that sets [max_tokens] to [null] passes validation; routed to
    Anthropic it makes the client's clamp raise before any call, and the
    caller gets the router's 500. *)
Theorem anthropic_null_max_tokens (rt : Runtime) (s : Settings) (w : World)
    (b : Body.t) (req : AIRequest.t) :
  validate b = Some req ->
  PyStr.lower (AIRequest.provider req) = "anthropic" ->
  Body.max_tokens b = Null ->
  post_ai_chat rt s w b =
  (ErrorReply 500 "Internal server error processing AI request", []).
Proof.
  intros Hv Hp Hn.
  destruct (validate_fields b req Hv) as [_ [_ [_ Hnone]]].
  unfold post_ai_chat. rewrite Hv.
  unfold chat_endpoint, try_except, chat_route, bind, pure.
  unfold get_provider_function. rewrite lower_idem, Hp. simpl.
  now rewrite (Hnone Hn).
Qed.

Lemma anthropic_null_max_tokens_witness :
  post_ai_chat sample_runtime sample_settings (talking_world "ok")
    (anthropic_body Null) =
  (ErrorReply 500 "Internal server error processing AI request", []).
Proof.
  apply (anthropic_null_max_tokens sample_runtime sample_settings
           (talking_world "ok") (anthropic_body Null)
           {| AIRequest.provider := "Anthropic"; AIRequest.prompt := "hi";
              AIRequest.model := None; AIRequest.max_tokens := None;
              AIRequest.temperature := Some (7 # 10)%Q |});
    reflexivity.
Defined.

Lemma remove_from_skip (old p rest : string) :
  PyStr.remove_from old (p ++ rest) (String.length p) =
  PyStr.remove_from old rest O.
Proof.
  induction p as [|c p IH]; simpl; [reflexivity | exact IH].
Qed.

Lemma remove_all_absent (old s : string) :
  PyStr.contains old s = false -> PyStr.remove_all old s = s.
Proof.
  unfold PyStr.remove_all. induction s as [|c t IH]; [reflexivity|].
  intros H. change (PyStr.contains old (String c t))
    with (prefix old (String c t) || PyStr.contains old t) in H.
  apply orb_false_elim in H. destruct H as [Hp Ht].
  change (PyStr.remove_from old (String c t) O)
    with (if prefix old (String c t)
          then PyStr.remove_from old t (Nat.pred (String.length old))
          else String c (PyStr.remove_from old t O)).
  now rewrite Hp, (IH Ht).
Qed.

Lemma prefix_app (p rest : string) : prefix p (p ++ rest) = true.
Proof.
  induction p as [|a p IH]; simpl.
  - now destruct rest.
  - destruct (ascii_dec a a); [exact IH | contradiction].
Qed.

Lemma gemini_prefix_removed (rest : string) :
  PyStr.contains "gemini-" rest = false ->
  PyStr.remove_all "gemini-" ("gemini-" ++ rest) = rest.
Proof.
  intros H. unfold PyStr.remove_all.
  change (PyStr.remove_from "gemini-" ("gemini-" ++ rest) O)
    with (if prefix "gemini-" ("gemini-" ++ rest)
          then PyStr.remove_from "gemini-" ("emini-" ++ rest)
                 (String.length "emini-")
          else String "g" (PyStr.remove_from "gemini-" ("emini-" ++ rest) O)).
  rewrite prefix_app, remove_from_skip. now apply remove_all_absent.
Qed.

(** X16.  The Gemini client puts the model into the URL of its one call: a name
    "gemini-<rest>", with no further "gemini-" inside, is sent as <rest>;
    a non-empty name that does not start with "gemini-" is sent whole. *)
Theorem gemini_model_in_url (rt : Runtime) (s : Settings) (w : World)
    (prompt : string) (max_tokens : option Z) (temperature : option Q) :
  (forall rest,
     PyStr.contains "gemini-" rest = false ->
     exists c,
       snd (call_gemini rt s w prompt (Some ("gemini-" ++ rest)) max_tokens
              temperature) = [HttpPost c]
       /\ url c = GEMINI_MODELS ++ rest ++ ":generateContent")
  /\ (forall name,
        name <> "" -> PyStr.startswith "gemini-" name = false ->
        exists c,
          snd (call_gemini rt s w prompt (Some name) max_tokens temperature) =
          [HttpPost c]
          /\ url c = GEMINI_MODELS ++ name ++ ":generateContent").
Proof.
  split.
  - intros rest Hrest. unfold call_gemini. cbv zeta. unfold post.
    eexists. split.
    + apply one_call; [intros ?; quiet_chain | intros ?; apply quiet_cloud_except].
    + cbn [url]. change (or_else (Some ("gemini-" ++ rest)) (default_gemini_model s))
        with ("gemini-" ++ rest).
      unfold PyStr.startswith.
      now rewrite prefix_app, (gemini_prefix_removed rest Hrest).
  - intros name Hne Hpre. unfold call_gemini. cbv zeta. unfold post.
    eexists. split.
    + apply one_call; [intros ?; quiet_chain | intros ?; apply quiet_cloud_except].
    + cbn [url].
      assert (Hor : or_else (Some name) (default_gemini_model s) = name).
      { destruct name; [contradiction | reflexivity]. }
      rewrite Hor, Hpre. reflexivity.
Qed.

Lemma gemini_model_in_url_witness :
  exists c,
    snd (call_gemini sample_runtime sample_settings (talking_world "ok") "hi"
           (Some "gemini-1.5-pro") (Some 500) None) = [HttpPost c]
    /\ url c =
       "https://generativelanguage.googleapis.com/v1beta/models/1.5-pro:generateContent".
Proof.
  apply (proj1 (gemini_model_in_url sample_runtime sample_settings
                  (talking_world "ok") "hi" (Some 500) None) "1.5-pro").
  reflexivity.
Defined.

(** X13.  A backend error whose body is not JSON, or whose [error] entry is a
    plain string, is not passed on with the backend's status: the
    [except] clause of the cloud client raises while reading the body, and
    the caller gets the router's 500. *)
Theorem cloud_error_body_unreadable (rt : Runtime) (s : Settings) (w : World)
    (req : AIRequest.t) (n : Z) (r : Response) (name : string) (f : provider_fn) :
  In (name, f) cloud_clients ->
  get_provider_function s (AIRequest.provider req) = Return f ->
  AIRequest.max_tokens req = Some n ->
  (forall c, http w c = Responds r) ->
  status_code r < 200 \/ 299 < status_code r ->
  body r = None
  \/ (exists fields text, body r = Some (JObj fields)
                          /\ assoc "error" fields = Some (JStr text)) ->
  (exists text,
     fst (f rt s w (AIRequest.prompt req) (AIRequest.model req) (Some n)
            (AIRequest.temperature req)) = Raise (Exception text))
  /\ fst (chat_endpoint rt s w req) =
     Raise (HTTPException 500 "Internal server error processing AI request").
Proof.
  intros Hin Hf Hn Hw Hst Hbody.
  assert (Hc : exists text,
            fst (f rt s w (AIRequest.prompt req) (AIRequest.model req) (Some n)
                   (AIRequest.temperature req)) = Raise (Exception text)).
  { rewrite (cloud_status_error rt s w _ _ n _ r name f Hin Hw (non_2xx r Hst)).
    unfold cloud_except, bind, pure, response_json, dict_get, fail.
    destruct Hbody as [-> | [fields [text [-> He]]]]; simpl.
    - eauto.
    - rewrite He. simpl. eauto. }
  split; [exact Hc|].
  destruct Hc as [text Hc].
  unfold chat_endpoint, try_except, chat_route, bind, pure.
  assert (Hl : get_provider_function s (PyStr.lower (AIRequest.provider req)) =
               Return f).
  { rewrite <- Hf. unfold get_provider_function. now rewrite lower_idem. }
  rewrite Hl, Hn. simpl.
  destruct (f rt s w _ _ _ _) as [o t]. simpl in Hc. subst o. reflexivity.
Qed.

Lemma cloud_error_body_unreadable_witness :
  fst (chat_endpoint sample_runtime sample_settings
         (failing_world 502 None) (hello None)) =
  Raise (HTTPException 500 "Internal server error processing AI request").
Proof.
  apply (proj2 (cloud_error_body_unreadable sample_runtime sample_settings
                  (failing_world 502 None) (hello None) 500
                  {| status_code := 502; body := None;
                     status_error_text := "status error" |}
                  "OpenAI" call_openai
                  (or_introl eq_refl) eq_refl eq_refl (fun _ => eq_refl)
                  (or_intror eq_refl) (or_introl eq_refl))).
Defined.

(** ** Local client *)

(** X18.  An exception of the local library that is not a [ResponseError]
    gives status 502 whatever its text says: the sorting by "model not
    found", "connection" and "refused" is not applied to it. *)
Theorem ollama_other_exception (rt : Runtime) (s : Settings) (w : World)
    (prompt : string) (model : option string) (max_tokens : option Z)
    (temperature : option Q) (text : string) :
  is_ollama_available s = true ->
  (forall c, ollama_generate w c = Breaks text) ->
  fst (call_ollama rt s w prompt model max_tokens temperature) =
  Raise (HTTPException 502 ("Ollama request failed: " ++ text)).
Proof.
  intros Hav Hw. unfold call_ollama. rewrite Hav.
  unfold try_except, bind, generate, pure. simpl. now rewrite Hw.
Qed.

Lemma ollama_other_exception_witness :
  fst (call_ollama sample_runtime sample_settings
         (broken_world "Connection refused") "hi" None (Some 500) None) =
  Raise (HTTPException 502 "Ollama request failed: Connection refused").
Proof.
  apply ollama_other_exception; [reflexivity | intros c; reflexivity].
Defined.

Lemma ollama_except_status (s : Settings) (model : string) (e : exn) :
  exists status detail,
    ollama_except s model e = (Raise (HTTPException status detail), [])
    /\ ollama_status status.
Proof.
  unfold ollama_except, ollama_status, raise.
  destruct e; try (do 2 eexists; split; [reflexivity | auto]).
  destruct (PyStr.contains "model not found" _);
    [do 2 eexists; split; [reflexivity | auto]|].
  destruct (_ || _); do 2 eexists; split; try reflexivity; auto.
Qed.

Lemma call_ollama_failure (rt : Runtime) (s : Settings) (w : World)
    (prompt : string) (model : option string) (max_tokens : option Z)
    (temperature : option Q) (e : exn) :
  fst (call_ollama rt s w prompt model max_tokens temperature) = Raise e ->
  exists status detail, e = HTTPException status detail /\ ollama_status status.
Proof.
  unfold call_ollama. destruct (is_ollama_available s); simpl negb; cbv iota.
  - cbv zeta. unfold try_except.
    destruct (bind _ _) as [[text|e'|] t]; simpl; try discriminate.
    destruct (ollama_except_status s (or_else model (default_ollama_model s)) e')
      as [c [d [-> Hc]]].
    simpl. intros [= <-]. eauto.
  - simpl. intros [= <-]. exists 503. eexists. split; [reflexivity|].
    unfold ollama_status. auto.
Qed.

(** X19.  Whatever goes wrong with a request for "ollama", the caller gets
    status 400, 502 or 503: the local client turns every exception into
    one of them, so the router's 500 is never reached on this route. *)
Theorem ollama_route_statuses (rt : Runtime) (s : Settings) (w : World)
    (req : AIRequest.t) (e : exn) :
  PyStr.lower (AIRequest.provider req) = "ollama" ->
  fst (chat_endpoint rt s w req) = Raise e ->
  exists status detail, e = HTTPException status detail /\ ollama_status status.
Proof.
  intros Hp. unfold chat_endpoint, try_except, chat_route, bind, pure.
  unfold get_provider_function. rewrite lower_idem, Hp. simpl.
  destruct (is_ollama_available s); simpl.
  - destruct (call_ollama rt s w _ _ _ _) as [[text|e'|] t] eqn:Hc; simpl;
      try discriminate.
    destruct (call_ollama_failure rt s w _ _ _ _ e'
                (f_equal fst Hc)) as [c [d [-> Hs]]].
    simpl. intros [= <-]. eauto.
  - intros [= <-]. exists 400. eexists. split; [reflexivity|].
    unfold ollama_status. auto.
Qed.

Lemma ollama_route_statuses_witness :
  exists status detail,
    HTTPException 502 "Ollama request failed: 'response'" =
    HTTPException status detail
    /\ ollama_status status.
Proof.
  apply (ollama_route_statuses
           {| exc_text := fun _ => "'response'"; value_text := fun _ => "" |}
           sample_settings (fixed_world (JObj []))
           (with_provider "Ollama" (hello None))).
  - reflexivity.
  - vm_compute. reflexivity.
Defined.

(** ** Request validation *)

(** X20.  Validation accepts exactly the bodies that give a provider and a
    prompt of 1 to 10000 characters and whose [max_tokens] and
    [temperature], when given, lie in 1..4096 and in 0..2; the accepted
    request carries the provider and the prompt as sent. *)
Theorem validate_accepts_iff (b : Body.t) :
  (exists req, validate b = Some req)
  <->
  (exists p q,
     Body.provider b = Given p /\ Body.prompt b = Given q
     /\ 1 <= Z.of_nat (PyStr.len q) <= 10000
     /\ (forall n, Body.max_tokens b = Given n -> 1 <= n <= 4096)
     /\ (forall x, Body.temperature b = Given x -> (0 <= x /\ x <= 2)%Q)).
Proof.
  split.
  - intros [req Hv].
    destruct (validate_fields b req Hv) as [Hp [Hq [Hmt _]]].
    destruct (validate_sound b req Hv) as [Hpo [Hrange Htemp]].
    exists (AIRequest.provider req), (AIRequest.prompt req).
    split; [exact Hp|]. split; [exact Hq|]. split; [|split].
    + unfold prompt_ok in Hpo. apply andb_prop in Hpo. destruct Hpo as [H1 H2].
      apply Z.leb_le in H1, H2. lia.
    + intros n Hn. exact (Hrange n (Hmt n Hn)).
    + intros x Hx. revert Hv. unfold validate, required, optional.
      rewrite Hp, Hq, Hx. simpl. destruct (prompt_ok _); [|discriminate].
      destruct (Body.model b); simpl;
        (destruct (Body.max_tokens b) as [| |n]; simpl;
         [ | | destruct (max_tokens_ok n); try discriminate ]);
        (destruct (temperature_ok x) eqn:Ht; [|discriminate]);
        intros _; apply andb_prop in Ht; destruct Ht as [H1 H2];
        split; now apply Qle_bool_iff.
  - intros [p [q [Hp [Hq [Hlen [Hmt Htemp]]]]]].
    unfold validate, required, optional. rewrite Hp, Hq. simpl.
    assert (Hpo : prompt_ok q = true).
    { unfold prompt_ok. apply andb_true_intro. split; apply Z.leb_le; lia. }
    rewrite Hpo.
    assert (Hm : forall n, Body.max_tokens b = Given n -> max_tokens_ok n = true).
    { intros n Hn. specialize (Hmt n Hn). unfold max_tokens_ok.
      apply andb_true_intro. split; apply Z.leb_le; lia. }
    assert (Ht : forall x, Body.temperature b = Given x -> temperature_ok x = true).
    { intros x Hx. destruct (Htemp x Hx) as [H1 H2]. unfold temperature_ok.
      apply andb_true_intro. split; now apply Qle_bool_iff. }
    destruct (Body.model b); simpl;
      (destruct (Body.max_tokens b) as [| |n]; simpl;
       [ | | rewrite (Hm n eq_refl) ]);
      (destruct (Body.temperature b) as [| |x]; simpl;
       [ | | rewrite (Ht x eq_refl) ]);
      eexists; reflexivity.
Qed.

Lemma validate_accepts_iff_witness :
  exists req, validate (anthropic_body Null) = Some req.
Proof.
  apply (proj2 (validate_accepts_iff (anthropic_body Null))).
  exists "Anthropic", "hi". repeat split; try discriminate; simpl; lia.
Defined.

(** ** Model names and timeouts on the wire *)

Lemma or_else_cases (model : option string) (d : string) :
  (model = None \/ model = Some "" -> or_else model d = d)
  /\ (forall m, model = Some m -> m <> "" -> or_else model d = m).
Proof.
  split.
  - intros [-> | ->]; reflexivity.
  - intros m -> Hm. destruct m; [contradiction | reflexivity].
Qed.

Lemma openai_sends (rt : Runtime) (s : Settings) (w : World) (prompt : string)
    (model : option string) (max_tokens : option Z) (temperature : option Q) :
  exists c,
    snd (call_openai rt s w prompt model max_tokens temperature) = [HttpPost c]
    /\ payload_field c "model" = Some (JStr (or_else model (default_openai_model s))).
Proof.
  unfold call_openai. cbv zeta. unfold post. eexists. split.
  - apply one_call; [intros ?; quiet_chain | intros ?; apply quiet_cloud_except].
  - reflexivity.
Qed.

Lemma anthropic_sends (rt : Runtime) (s : Settings) (w : World) (prompt : string)
    (model : option string) (n : Z) (temperature : option Q) :
  exists c,
    snd (call_anthropic rt s w prompt model (Some n) temperature) = [HttpPost c]
    /\ payload_field c "model" =
       Some (JStr (or_else model (default_anthropic_model s))).
Proof.
  unfold call_anthropic. rewrite bind_pure_return. cbv zeta. unfold post.
  eexists. split.
  - apply one_call; [intros ?; quiet_chain | intros ?; apply quiet_cloud_except].
  - reflexivity.
Qed.

Lemma ollama_sends (rt : Runtime) (s : Settings) (w : World) (prompt : string)
    (model : option string) (max_tokens : option Z) (temperature : option Q) :
  is_ollama_available s = true ->
  exists c,
    snd (call_ollama rt s w prompt model max_tokens temperature) =
    [OllamaGenerate c]
    /\ gen_model c = or_else model (default_ollama_model s).
Proof.
  intros Hav. unfold call_ollama. rewrite Hav. simpl negb. cbv iota zeta.
  unfold generate. eexists. split.
  - apply one_call; [intros ?; quiet_chain | intros ?; apply quiet_ollama_except].
  - reflexivity.
Qed.

(** X17.  A model that the caller omits, or gives as the empty string, is
    replaced on the wire by the provider's default from the settings; a
    non-empty model is sent as given.  Shown for the OpenAI and Anthropic
    payloads and for the local [generate] call. *)
Theorem default_model_on_the_wire (rt : Runtime) (s : Settings) (w : World)
    (prompt : string) (model : option string) (n : Z) (temperature : option Q) :
  is_ollama_available s = true ->
  exists c1 c2 c3,
    snd (call_openai rt s w prompt model (Some n) temperature) = [HttpPost c1]
    /\ snd (call_anthropic rt s w prompt model (Some n) temperature) = [HttpPost c2]
    /\ snd (call_ollama rt s w prompt model (Some n) temperature) =
       [OllamaGenerate c3]
    /\ (model = None \/ model = Some "" ->
        payload_field c1 "model" = Some (JStr (default_openai_model s))
        /\ payload_field c2 "model" = Some (JStr (default_anthropic_model s))
        /\ gen_model c3 = default_ollama_model s)
    /\ (forall m, model = Some m -> m <> "" ->
        payload_field c1 "model" = Some (JStr m)
        /\ payload_field c2 "model" = Some (JStr m)
        /\ gen_model c3 = m).
Proof.
  intros Hav.
  destruct (openai_sends rt s w prompt model (Some n) temperature) as [c1 [H1 P1]].
  destruct (anthropic_sends rt s w prompt model n temperature) as [c2 [H2 P2]].
  destruct (ollama_sends rt s w prompt model (Some n) temperature Hav)
    as [c3 [H3 P3]].
  exists c1, c2, c3. rewrite P1, P2, P3.
  split; [exact H1|]. split; [exact H2|]. split; [exact H3|]. split.
  - intros Hm.
    now rewrite !(proj1 (or_else_cases model _) Hm).
  - intros m Hm Hne.
    now rewrite !(proj2 (or_else_cases model _) m Hm Hne).
Qed.

Lemma default_model_on_the_wire_witness :
  exists c1 c2 c3,
    snd (call_openai sample_runtime sample_settings silent_world "hi" (Some "")
           (Some 500) None) = [HttpPost c1]
    /\ snd (call_anthropic sample_runtime sample_settings silent_world "hi"
              (Some "") (Some 500) None) = [HttpPost c2]
    /\ snd (call_ollama sample_runtime sample_settings silent_world "hi"
              (Some "") (Some 500) None) = [OllamaGenerate c3]
    /\ payload_field c1 "model" = Some (JStr "gpt-4o-mini")
    /\ payload_field c2 "model" = Some (JStr "claude-3-5-sonnet-20241022")
    /\ gen_model c3 = "llama3.2:3b".
Proof.
  destruct (default_model_on_the_wire sample_runtime sample_settings
              silent_world "hi" (Some "") 500 None eq_refl)
    as [c1 [c2 [c3 [H1 [H2 [H3 [Hd _]]]]]]].
  exists c1, c2, c3.
  split; [exact H1|]. split; [exact H2|]. split; [exact H3|].
  apply Hd. right. reflexivity.
Defined.

Lemma cloud_call_under_timeout_witness :
  exists c,
    snd (call_gemini sample_runtime sample_settings silent_world "hi" None
           (Some 500) None) = [HttpPost c]
    /\ timeout c = TIMEOUT_CONFIG.
Proof.
  apply (cloud_call_under_timeout sample_runtime sample_settings silent_world
           "hi" None 500 None "Gemini" call_gemini).
  simpl. right. right. left. reflexivity.
Defined.

Lemma cloud_silent_backend_witness :
  fst (call_anthropic sample_runtime sample_settings silent_world "hi" None
         (Some 500) None) =
  Raise (HTTPException 502 "Anthropic request failed: timed out").
Proof.
  apply (cloud_silent_backend sample_runtime sample_settings silent_world
           "hi" None 500 None "Anthropic" call_anthropic).
  - simpl. right. left. reflexivity.
  - intros c. reflexivity.
Defined.
